(** * Pre-action authorization examples: a shallow embedding

    The Python sources embedded here are
      - [python/basic_usage.py]            (class [AgentPassportClient]),
      - [python/mcp_enforcement.py]        (MCP header extraction and validation),
      - [openai-agents/pre_action_authorization.py]
                                           ([PreActionAuthorizer], the wrapper),
      - [microsoft-agent-framework/aport_middleware.py]
                                           (agent-run and function middleware).

    Python dictionaries with string keys are [gmap string _], Python lists
    are [list], Python [str] is [string] (one [ascii] per code point, the
    way Starlette decodes header bytes as latin-1), and Python [int] is [Z].
    Calls to the remote authority go through the SDK client, which is not
    part of this repository: its answers are parameters of the model. *)

From Stdlib Require Import ZArith Lia Bool Ascii String List.
From stdpp Require Import base option list strings gmap.
Import ListNotations.

Local Open Scope string_scope.
#[local] Set Warnings "-register-all".

(** ** Python helpers shared by the modules below *)

(** [list.index(x)]: position of the first element equal to [x];
    [None] stands for the [ValueError] Python raises when there is none. *)
Fixpoint index (levels : list string) (x : string) : option nat :=
  match levels with
  | [] => None
  | y :: rest =>
      if String.eqb y x then Some 0
      else match index rest x with
           | Some i => Some (S i)
           | None => None
           end
  end.

(** [x in l] for a list of strings. *)
Definition str_in (x : string) (l : list string) : bool :=
  existsb (String.eqb x) l.

(** [sep.join(parts)]. *)
Fixpoint join (sep : string) (parts : list string) : string :=
  match parts with
  | [] => ""
  | [p] => p
  | p :: rest => p ++ sep ++ join sep rest
  end.

(** ** [AgentPassportClient._compare_assurance_levels] (basic_usage.py) *)

Module Assurance.

Definition levels : list string := ["L0"; "L1"; "L2"; "L3"; "L4KYC"; "L4FIN"].

(** [try: ... levels.index(current) ... except ValueError: return False] *)
Definition _compare_assurance_levels (current required : string) : bool :=
  match index levels current with
  | None => false
  | Some current_index =>
      match index levels required with
      | None => false
      | Some required_index => Nat.leb required_index current_index
      end
  end.

End Assurance.

(** ** The refund block of [demonstrate_capabilities_and_limits] (basic_usage.py) *)

Module Limits.









End Limits.

(** ** [AgentPassportClient.verify_with_retry] (basic_usage.py) *)

Module Retry.

(** The value a response carries under [retryAfter]: a whole number of
    seconds, or a JSON value [time.sleep] raises [TypeError] on (a string,
    null, an array, an object). *)
Inductive RetryAfter :=
| Seconds (seconds : Z)
| NotSeconds.

(** [response['data']]: a JSON object (of which the loop reads only
    [retryAfter]) or anything else (the raw text [_make_request] keeps when
    the body is not JSON, a JSON array, ...), on which [.get] raises. *)
Inductive Data :=
| JsonObject (retryAfter : option RetryAfter) (body : string)
| NotObject (body : string).

(** One call of [verify_passport]: the response dictionary, or an exception.
    [_make_request] turns a [requests.RequestException] (timeout, refused
    connection) into status code 0. *)
Inductive Outcome :=
| Response (status_code : Z) (data : Data)
| Raised.

Inductive Event :=
| Call (attempt : nat)
| Sleep (seconds : Z).

(** How a call of [verify_with_retry] ends: it returns [response['data']]
    or [None], or an exception leaves it. *)
Inductive Result :=
| Returned (data : option Data)
| Escaped.

(** What one iteration of the loop does after its call: it returns
    [response['data']], or it goes on to the next iteration having made the
    listed pauses, or an exception leaves the loop. *)
Inductive Step :=
| Finish (data : Data)
| Continue (pauses : list Event)
| Escape.

Section Platform.

(** The largest whole number of seconds [time.sleep] accepts on the
    platform; above it [time.sleep] raises [OverflowError]. *)
Variable max_sleep : Z.

(** [time.sleep(seconds)] makes the pause, rather than raising [ValueError]
    for a negative argument or [OverflowError] for one that is too large. *)
Definition sleep_accepts (seconds : Z) : bool :=
  (0 <=? seconds)%Z && (seconds <=? max_sleep)%Z.

(** The [except Exception] clause: [if attempt < max_retries:
    time.sleep(2 ** attempt); continue].  It is not inside a [try], so an
    exception of its [time.sleep] leaves the function. *)
Definition handler (max_retries attempt : nat) : Step :=
  if (attempt <? max_retries)%nat then
    if sleep_accepts (2 ^ Z.of_nat attempt)
    then Continue [Sleep (2 ^ Z.of_nat attempt)]
    else Escape
  else Continue [].

(** The [elif] and [else] branches of the [try] body.  Whatever raises in
    them ([.get] on a body that is not an object, [time.sleep] on a value it
    does not accept) is caught by the [except Exception] clause. *)
Definition after_failure (max_retries attempt : nat) (status_code : Z)
    (data : Data) : Step :=
  if (status_code =? 429)%Z then
    match data with
    | NotObject _ => handler max_retries attempt
    | JsonObject retryAfter _ =>
        let retry_after :=
          default (Seconds (2 ^ Z.of_nat attempt)) retryAfter in
        if (attempt <? max_retries)%nat then
          match retry_after with
          | Seconds seconds =>
              if sleep_accepts seconds
              then Continue [Sleep seconds]
              else handler max_retries attempt
          | NotSeconds => handler max_retries attempt
          end
        else Continue []
    end
  else
    if (attempt <? max_retries)%nat then
      if sleep_accepts (2 ^ Z.of_nat attempt)
      then Continue [Sleep (2 ^ Z.of_nat attempt)]
      else handler max_retries attempt
    else Continue [].

(** The body of the loop in iteration [attempt], after the call of
    [verify_passport] with outcome [o]. *)
Definition iteration (max_retries attempt : nat) (o : Outcome) : Step :=
  match o with
  | Response status_code data =>
      if (status_code =? 200)%Z then Finish data
      else after_failure max_retries attempt status_code data
  | Raised => handler max_retries attempt
  end.

(** The [for attempt in range(1, max_retries + 1)] loop over the attempts
    still to make; [server attempt] is the outcome of the call made in
    iteration [attempt]. *)
Fixpoint retry_loop (server : nat -> Outcome) (max_retries : nat)
    (attempts : list nat) : Result * list Event :=
  match attempts with
  | [] => (Returned None, [])
  | attempt :: rest =>
      match iteration max_retries attempt (server attempt) with
      | Finish data => (Returned (Some data), [Call attempt])
      | Escape => (Escaped, [Call attempt])
      | Continue pauses =>
          let '(result, events) := retry_loop server max_retries rest in
          (result, Call attempt :: pauses ++ events)
      end
  end.

(** [max_retries] is a Python [int]; [range(1, max_retries + 1)] is empty
    when it is not positive. *)
Definition verify_with_retry (server : nat -> Outcome) (max_retries : Z)
  : Result * list Event :=
  retry_loop server (Z.to_nat max_retries) (seq 1 (Z.to_nat max_retries)).



End Platform.

(** The attempts made, in order. *)
Definition calls (events : list Event) : list nat :=
  omap (fun e => match e with Call k => Some k | Sleep _ => None end) events.



(** CPython keeps the pause as a signed 64-bit count of nanoseconds, so no
    platform accepts more than this many seconds. *)
Definition cpython_max_sleep : Z := 9223372036.

(** A server answering 404 once, then 200. *)
Definition not_found_then_ok (attempt : nat) : Outcome :=
  if (attempt =? 1)%nat then Response 404 (NotObject "not found")
  else Response 200 (JsonObject None "passport").

(** A server that asks once for a pause [time.sleep] cannot make. *)
Definition absurd_retry_after (attempt : nat) : Outcome :=
  if (attempt =? 1)%nat
  then Response 429 (JsonObject (Some (Seconds (10 ^ 30))) "slow down")
  else Response 200 (JsonObject None "passport").

End Retry.

(** ** MCP header extraction and allowlist validation (mcp_enforcement.py) *)

Module MCP.

(** *** Python string methods used by [extract_mcp_headers] *)

(** [ch.isspace()] on the code points below 256. *)
Definition is_space (c : ascii) : bool :=
  let n := nat_of_ascii c in
  ((9 <=? n)%nat && (n <=? 13)%nat) || ((28 <=? n)%nat && (n <=? 32)%nat)
  || (n =? 133)%nat || (n =? 160)%nat.

Fixpoint lstrip (s : string) : string :=
  match s with
  | EmptyString => EmptyString
  | String c rest => if is_space c then lstrip rest else s
  end.

Fixpoint rstrip (s : string) : string :=
  match s with
  | EmptyString => EmptyString
  | String c rest =>
      match rstrip rest with
      | EmptyString => if is_space c then EmptyString else String c EmptyString
      | kept => String c kept
      end
  end.

(** [s.strip()] *)
Definition strip (s : string) : string := rstrip (lstrip s).

(** [s.split(sep)] for a one-character separator: never an empty list. *)
Fixpoint split (sep : ascii) (s : string) : list string :=
  match s with
  | EmptyString => [EmptyString]
  | String c rest =>
      if Ascii.eqb c sep then EmptyString :: split sep rest
      else match split sep rest with
           | [] => [String c EmptyString]
           | field :: fields => String c field :: fields
           end
  end.

(** [ch in s] *)
Fixpoint contains (ch : ascii) (s : string) : bool :=
  match s with
  | EmptyString => false
  | String c rest => Ascii.eqb c ch || contains ch rest
  end.

Definition comma : ascii := ","%char.

(** Reading aids for the results of [strip] and [split]. *)
Fixpoint all_space (s : string) : bool :=
  match s with
  | EmptyString => true
  | String c rest => is_space c && all_space rest
  end.

Definition first_char (s : string) : option ascii :=
  match s with
  | EmptyString => None
  | String c _ => Some c
  end.

Fixpoint last_char (s : string) : option ascii :=
  match s with
  | EmptyString => None
  | String c EmptyString => Some c
  | String _ rest => last_char rest
  end.

Definition not_space (o : option ascii) : bool :=
  match o with
  | None => true
  | Some c => negb (is_space c)
  end.

(** No whitespace at either end, and no comma inside. *)
Definition clean_entry (s : string) : bool :=
  not_space (first_char s) && not_space (last_char s)
  && negb (contains comma s).

(** [a or b] on the results of [headers.get]: [None] and the empty string
    are falsy. *)
Definition header_or (a b : option string) : option string :=
  match a with
  | Some EmptyString | None => b
  | Some _ => a
  end.

(** *** [extract_mcp_headers] *)

Record Request := { headers : gmap string string }.

(** The dictionary [extract_mcp_headers] returns, one field per key. *)
Record McpHeaders := {
  servers : list string;
  tools : list string;
  session : option string;
  server : option string;
  tool : option string
}.

(** [[x.strip() for x in h.split(",")] if "," in h else [h]], under
    [if h:]; otherwise the initial [[]]. *)
Definition parse_header (header : option string) : list string :=
  match header with
  | None | Some EmptyString => []
  | Some h => if contains comma h then map strip (split comma h) else [h]
  end.

(** [l[0] if l else None] *)
Definition first_or_none (l : list string) : option string :=
  match l with
  | [] => None
  | x :: _ => Some x
  end.

Definition extract_mcp_headers (request : Request) : McpHeaders :=
  let servers_header :=
    header_or (headers request !! "X-MCP-Servers")
              (headers request !! "X-MCP-Server") in
  let tools_header :=
    header_or (headers request !! "X-MCP-Tools")
              (headers request !! "X-MCP-Tool") in
  let servers := parse_header servers_header in
  let tools := parse_header tools_header in
  {| servers := servers;
     tools := tools;
     session := headers request !! "X-MCP-Session";
     server := first_or_none servers;
     tool := first_or_none tools |}.

(** A request with a comma-joined servers header and a lone tool header. *)
Definition example_http_request : Request :=
  {| headers :=
       {[ "X-MCP-Servers" := "https://mcp.stripe.com , https://mcp.notion.com";
          "X-MCP-Tool" := "stripe.refunds.create" ]} |}.

(** *** [validate_mcp_against_passport] *)

(** [passport["mcp"]], restricted to the keys the validation reads. *)
Record McpConfig := {
  mcp_servers : option (list string);
  mcp_tools : option (list string)
}.

Record PassportView := { mcp : option McpConfig }.

(** The SDK's [AportError]: [status] may be missing ([hasattr]). *)
Record AportError := {
  aport_status : option Z;
  aport_message : string
}.

(** [await client.get_passport_view(agent_id)] *)
Inductive PassportFetch :=
| Fetched (passport : PassportView)
| FetchFailed (e : AportError).

(** [HTTPException(status_code, detail={"error": ..., "message": ...})] *)
Record HTTPException := {
  status_code : Z;
  error : string;
  message : string
}.

(** [passport.get("mcp", {}).get("servers", [])] *)
Definition allowed_servers (passport : PassportView) : list string :=
  match mcp passport with
  | Some config => default [] (mcp_servers config)
  | None => []
  end.

Definition allowed_tools (passport : PassportView) : list string :=
  match mcp passport with
  | Some config => default [] (mcp_tools config)
  | None => []
  end.

(** [[x for x in requested if x not in allowed]] *)
Definition unauthorized (requested allowed : list string) : list string :=
  List.filter (fun x => negb (str_in x allowed)) requested.

Definition server_not_allowed (unauthorized_servers allowed : list string)
  : HTTPException :=
  {| status_code := 403;
     error := "mcp_server_not_allowed";
     message := "MCP server(s) " ++ join ", " unauthorized_servers
                ++ " not in passport allowlist. Allowed servers: "
                ++ join ", " allowed |}.

Definition tool_not_allowed (unauthorized_tools allowed : list string)
  : HTTPException :=
  {| status_code := 403;
     error := "mcp_tool_not_allowed";
     message := "MCP tool(s) " ++ join ", " unauthorized_tools
                ++ " not in passport allowlist. Allowed tools: "
                ++ join ", " allowed |}.

(** The body of the [try]; [inl] is a raised [HTTPException], [inr] the
    returned value.  [if mcp_headers.get("servers"):] and
    [if unauthorized_servers:] test for a non-empty list. *)
Definition validate_fetched (passport : PassportView)
    (mcp_headers : McpHeaders) : HTTPException + bool :=
  let check_tools :=
    match tools mcp_headers with
    | [] => inr true
    | _ :: _ =>
        match unauthorized (tools mcp_headers) (allowed_tools passport) with
        | [] => inr true
        | (_ :: _) as unauthorized_tools =>
            inl (tool_not_allowed unauthorized_tools (allowed_tools passport))
        end
    end in
  match servers mcp_headers with
  | [] => check_tools
  | _ :: _ =>
      match unauthorized (servers mcp_headers) (allowed_servers passport) with
      | [] => check_tools
      | (_ :: _) as unauthorized_servers =>
          inl (server_not_allowed unauthorized_servers
                 (allowed_servers passport))
      end
  end.

Definition validate_mcp_against_passport (fetch : PassportFetch)
    (mcp_headers : McpHeaders) : HTTPException + bool :=
  match fetch with
  | Fetched passport => validate_fetched passport mcp_headers
  | FetchFailed e =>
      inl {| status_code := default 500%Z (aport_status e);
             error := "passport_fetch_failed";
             message := aport_message e |}
  end.

(** The example of the specification: allowlist [{servers: [A], tools: [X]}]
    and request [{servers: [A, B], tools: [X]}]. *)
Definition example_passport : PassportView :=
  {| mcp := Some {| mcp_servers := Some ["A"]; mcp_tools := Some ["X"] |} |}.

Definition example_request : McpHeaders :=
  {| servers := ["A"; "B"]; tools := ["X"]; session := None;
     server := Some "A"; tool := Some "X" |}.

(** Two requests with the same unauthorized server and different tools. *)
Definition request_tool_ok : McpHeaders :=
  {| servers := ["B"]; tools := ["X"]; session := None;
     server := Some "B"; tool := Some "X" |}.

Definition request_tool_bad : McpHeaders :=
  {| servers := ["B"]; tools := ["Y"]; session := None;
     server := Some "B"; tool := Some "Y" |}.

End MCP.

(** ** Python values, the SDK client and a monad for effectful code *)

Module Effects.

(** The values stored in metadata and context dictionaries.  [VResponse]
    is the framework's [AgentRunResponse] holding one assistant message. *)
Inductive Value :=
| VNone
| VBool (b : bool)
| VInt (z : Z)
| VStr (s : string)
| VList (items : list Value)
| VDict (items : list (string * Value))
| VResponse (text : string).

(** Python truthiness ([if v:], [not v], [a or b]). *)
Definition truthy (v : Value) : bool :=
  match v with
  | VNone => false
  | VBool b => b
  | VInt z => negb (z =? 0)%Z
  | VStr s => negb (String.eqb s "")
  | VList items => match items with [] => false | _ => true end
  | VDict items => match items with [] => false | _ => true end
  | VResponse _ => true
  end.

(** [a or b] *)
Definition py_or (a b : Value) : Value := if truthy a then a else b.

(** [d.get(key)] and [d.get(key, dflt)] *)
Definition get (d : gmap string Value) (key : string) : Value :=
  default VNone (d !! key).

Definition get_or (d : gmap string Value) (key : string) (dflt : Value)
  : Value :=
  default dflt (d !! key).

(** One entry of [decision.reasons]: a dictionary with optional
    [code] and [message]. *)
Record Reason := {
  code : option string;
  reason_message : option string
}.

(** The SDK's [PolicyVerificationResponse]. *)
Record Decision := {
  decision_id : string;
  allow : bool;
  reasons : option (list Reason);
  assurance_level : option string
}.

(** The SDK's [AportError]; [status] and [decision_id] may be missing. *)
Record AportError := {
  status : option Z;
  aport_message : string;
  aport_decision_id : option string
}.

(** The exceptions the modelled code raises or catches.  All are
    subclasses of [Exception]. *)
Inductive Exn :=
| AuthorizationError (decision : Decision) (message : string)
| AportErr (e : AportError)
| ImportError
| OtherException (message : string).

(** [str(e)] *)
Definition exn_str (e : Exn) : string :=
  match e with
  | AuthorizationError _ message => message
  | AportErr e => aport_message e
  | ImportError => "No module named 'agent_framework'"
  | OtherException message => message
  end.

(** The keyword arguments of [client.verify_policy]. *)
Record Request := {
  req_agent_id : Value;
  req_policy_id : Value;
  req_context : gmap string Value;
  req_idempotency_key : Value
}.

Inductive VerifyOutcome :=
| Returned (decision : Decision)
| VerifyRaised (e : Exn).

Inductive PassportOutcome :=
| PassportView (passport_view : Value)
| PassportRaised (e : Exn).

(** The SDK client, an external collaborator: each call answers from the
    state of the remote authority (and of whatever the SDK keeps) and
    moves it on. *)
Record APortClient (RS : Type) := {
  verify_policy : RS -> Request -> VerifyOutcome * RS;
  get_passport_view : RS -> Value -> PassportOutcome * RS
}.
Arguments verify_policy {RS}.
Arguments get_passport_view {RS}.

(** The positional and keyword arguments of a wrapped tool function. *)
Record Args := {
  args : list Value;
  kwargs : list (string * Value)
}.

Inductive LogLevel := Info | Warning | Error.

(** Observable effects, in the order they happen. *)
Inductive Event :=
| EvVerifyPolicy (req : Request) (out : VerifyOutcome)
| EvGetPassportView (agent_id : Value) (out : PassportOutcome)
| EvNext
| EvFunc (a : Args)
| EvLog (level : LogLevel)
| EvPrint
| EvAudit (agent_id : Value) (audit_decision_id : Value)
| EvClose.

(** The state the code runs in: the context object it shares with the
    framework (mutated in place), the remote authority, and the log of
    effects. *)
Record Machine (C RS : Type) := {
  ctx : C;
  remote : RS;
  trace : list Event
}.
Arguments ctx {C RS}.
Arguments remote {C RS}.
Arguments trace {C RS}.
Arguments Build_Machine {C RS}.

(** How a statement ends: normally, by [return], or by an exception. *)
Inductive Ctl (R A : Type) :=
| Norm (a : A)
| Return (r : R)
| Raise (e : Exn).
Arguments Norm {R A}.
Arguments Return {R A}.
Arguments Raise {R A}.

(** Statements of a function returning [R], over context type [C]. *)
Definition M (C RS R A : Type) : Type :=
  Machine C RS -> Ctl R A * Machine C RS.

Section Monad.
Context {C RS R : Type}.

Definition ret {A} (a : A) : M C RS R A := fun s => (Norm a, s).

Definition bind {A B} (m : M C RS R A) (k : A -> M C RS R B)
  : M C RS R B :=
  fun s =>
    match m s with
    | (Norm a, s') => k a s'
    | (Return r, s') => (Return r, s')
    | (Raise e, s') => (Raise e, s')
    end.

(** [return r] *)
Definition return_ {A} (r : R) : M C RS R A := fun s => (Return r, s).

(** [raise e] *)
Definition raise {A} (e : Exn) : M C RS R A := fun s => (Raise e, s).

(** A pure callback that may raise. *)
Definition lift {A} (x : Exn + A) : M C RS R A :=
  match x with
  | inl e => raise e
  | inr a => ret a
  end.

(** [try: body / except ...: handler]: [handler e] is [None] when no
    [except] clause matches [e].  State changes made before the
    exception stay. *)
Definition try_except {A} (body : M C RS R A)
    (handler : Exn -> option (M C RS R A)) : M C RS R A :=
  fun s =>
    match body s with
    | (Raise e, s') =>
        match handler e with
        | Some h => h s'
        | None => (Raise e, s')
        end
    | other => other
    end.

(** [try: body / finally: cleanup] *)
Definition try_finally {A} (body : M C RS R A) (cleanup : M C RS R unit)
  : M C RS R A :=
  fun s =>
    match body s with
    | (c, s') =>
        match cleanup s' with
        | (Norm _, s'') => (c, s'')
        | (Return r, s'') => (Return r, s'')
        | (Raise e, s'') => (Raise e, s'')
        end
    end.

(** [if cond: body] *)
Definition when (cond : bool) (body : M C RS R unit) : M C RS R unit :=
  if cond then body else ret tt.

Definition emit (e : Event) : M C RS R unit :=
  fun s => (Norm tt, {| ctx := ctx s; remote := remote s;
                        trace := trace s ++ [e] |}).

Definition read_ctx : M C RS R C := fun s => (Norm (ctx s), s).

Definition update_ctx (f : C -> C) : M C RS R unit :=
  fun s => (Norm tt, {| ctx := f (ctx s); remote := remote s;
                        trace := trace s |}).

(** [await client.verify_policy(...)] *)
Definition call_verify_policy (client : APortClient RS) (req : Request)
  : M C RS R Decision :=
  fun s =>
    let '(out, remote') := verify_policy client (remote s) req in
    let s' := {| ctx := ctx s; remote := remote';
                 trace := trace s ++ [EvVerifyPolicy req out] |} in
    match out with
    | Returned decision => (Norm decision, s')
    | VerifyRaised e => (Raise e, s')
    end.

(** [await client.get_passport_view(agent_id)] *)
Definition call_get_passport_view (client : APortClient RS)
    (agent_id : Value) : M C RS R Value :=
  fun s =>
    let '(out, remote') := get_passport_view client (remote s) agent_id in
    let s' := {| ctx := ctx s; remote := remote';
                 trace := trace s ++ [EvGetPassportView agent_id out] |} in
    match out with
    | PassportView passport_view => (Norm passport_view, s')
    | PassportRaised e => (Raise e, s')
    end.

(** A call of the function whose body is [body]: falling off the end
    returns [fall_through] (Python's [None]). *)
Definition run_function (fall_through : R) (body : M C RS R unit)
    (s : Machine C RS) : (Exn + R) * Machine C RS :=
  match body s with
  | (Norm _, s') => (inr fall_through, s')
  | (Return r, s') => (inr r, s')
  | (Raise e, s') => (inl e, s')
  end.

End Monad.

#[global] Instance M_ret {C RS R} : MRet (M C RS R) := @ret C RS R.
#[global] Instance M_bind {C RS R} : MBind (M C RS R) :=
  fun A B k m => bind m k.

(** Counting effects in a log. *)
Definition is_next (e : Event) : bool :=
  match e with EvNext => true | _ => false end.

Definition is_func (e : Event) : bool :=
  match e with EvFunc _ => true | _ => false end.

Definition is_verify (e : Event) : bool :=
  match e with EvVerifyPolicy _ _ => true | _ => false end.

Definition is_remote (e : Event) : bool :=
  match e with
  | EvVerifyPolicy _ _ | EvGetPassportView _ _ => true
  | _ => false
  end.

Definition count (p : Event -> bool) (events : list Event) : nat :=
  length (List.filter p events).

(** The log shows a policy verification that answered with an explicit
    [allow = True] decision. *)
Definition is_allow (e : Event) : bool :=
  match e with
  | EvVerifyPolicy _ (Returned decision) => allow decision
  | _ => false
  end.

End Effects.

(** ** [PreActionAuthorizer] and [with_pre_action_authorization]
       (pre_action_authorization.py) *)

Module PreAction.
Import Effects.

Section Authorizer.
Context {RS : Type}.

(** [self.client] *)
Variable client : APortClient RS.

(** Python's [repr] of a non-empty list of reasons, used in an f-string. *)
Variable repr_reasons : list Reason -> string.

(** [decision.reasons or 'Policy check failed'], formatted. *)
Definition reasons_or_default (decision : Decision) : string :=
  match reasons decision with
  | Some ((_ :: _) as rs) => repr_reasons rs
  | _ => "Policy check failed"
  end.

(** [PreActionAuthorizer.verify]: one call of the client, every time;
    the function keeps nothing between calls. *)
Definition verify {C R} (agent_id policy_id : string)
    (context : gmap string Value) (idempotency_key : Value)
  : M C RS R Decision :=
  decision ← call_verify_policy client
               {| req_agent_id := VStr agent_id;
                  req_policy_id := VStr policy_id;
                  req_context := context;
                  req_idempotency_key := idempotency_key |};
  if negb (allow decision) then
    raise (AuthorizationError decision
             ("Authorization denied: " ++ reasons_or_default decision))
  else ret decision.

(** [', '.join([r.get('message', '') for r in (e.decision.reasons or [])])] *)
Definition denial_messages (decision : Decision) : string :=
  join ", " (map (fun r => default "" (reason_message r))
                 (default [] (reasons decision))).

(** The body of the inner function [wrapper] of
    [with_pre_action_authorization], called with [a].  The callbacks
    [build_context], [idempotency_key_fn] and [func] are pure functions
    that may raise; calling [func] is logged as [EvFunc]. *)
Definition wrapper {C}
    (agent_id policy_id : string)
    (build_context : Args -> Exn + gmap string Value)
    (idempotency_key_fn : option (Args -> Exn + Value))
    (func : Args -> Exn + Value)
    (a : Args) : M C RS Value unit :=
  context ← lift (build_context a);
  idempotency_key ←
    match idempotency_key_fn with
    | Some key_fn => lift (key_fn a)
    | None => ret VNone
    end;
  try_except
    (decision ← verify agent_id policy_id context idempotency_key;
     emit EvPrint;;
     emit (EvFunc a);;
     result ← lift (func a);
     return_ result)
    (fun e =>
       match e with
       | AuthorizationError decision _ =>
           Some (emit EvPrint;;
                 emit EvPrint;;
                 raise (AuthorizationError decision
                          ("Action denied: " ++ denial_messages decision)))
       | _ => None
       end).

(** A call of the wrapped function from a machine state. *)
Definition call_wrapper {C}
    (agent_id policy_id : string)
    (build_context : Args -> Exn + gmap string Value)
    (idempotency_key_fn : option (Args -> Exn + Value))
    (func : Args -> Exn + Value)
    (a : Args) (s : Machine C RS) : (Exn + Value) * Machine C RS :=
  run_function VNone
    (wrapper agent_id policy_id build_context idempotency_key_fn func a) s.

(** A direct call of [authorizer.verify] (Example 3 of [main]). *)
Definition call_verify (agent_id policy_id : string)
    (context : gmap string Value) (idempotency_key : Value)
    (s : Machine unit RS) : (Exn + Decision) * Machine unit RS :=
  match verify (R := Decision) agent_id policy_id context idempotency_key s
  with
  | (Norm decision, s') => (inr decision, s')
  | (Return decision, s') => (inr decision, s')
  | (Raise e, s') => (inl e, s')
  end.

(** Two calls of [verify] in a row with the same arguments. *)
Definition verify_twice (agent_id policy_id : string)
    (context : gmap string Value) (idempotency_key : Value)
    (s : Machine unit RS)
  : (Exn + Decision) * (Exn + Decision) * Machine unit RS :=
  let '(first, s1) :=
    call_verify agent_id policy_id context idempotency_key s in
  let '(second, s2) :=
    call_verify agent_id policy_id context idempotency_key s1 in
  (first, second, s2).

End Authorizer.

End PreAction.

(** ** Agent-run and function-calling middleware (aport_middleware.py) *)

Module Middleware.
Import Effects.

(** The framework's [AgentRunContext]. *)
Record AgentRunContext := {
  messages : list Value;
  metadata : gmap string Value;
  result : Value;
  terminate : bool;
  is_streaming : bool
}.

(** The framework's [FunctionInvocationContext]; [function_name] is
    [context.function.name] when the function object has that attribute. *)
Record FunctionInvocationContext := {
  function_name : option string;
  arguments : gmap string Value;
  fn_metadata : gmap string Value;
  fn_result : Value;
  fn_terminate : bool
}.

(** What the code reads from its surroundings: whether the
    [agent_framework] package can be imported, the clock, and Python's
    formatting of [decision.reasons] in an f-string. *)
Record Env := {
  framework_available : bool;
  utcnow : string;
  str_reasons : option (list Reason) -> string
}.

(** [ch.lower()] on the code points below 256. *)
Definition lower_char (c : ascii) : ascii :=
  let n := nat_of_ascii c in
  if ((65 <=? n)%nat && (n <=? 90)%nat)
     || ((192 <=? n)%nat && (n <=? 222)%nat && negb (n =? 215)%nat)
  then ascii_of_nat (n + 32) else c.

Fixpoint lower (s : string) : string :=
  match s with
  | EmptyString => EmptyString
  | String c rest => String (lower_char c) (lower rest)
  end.

(** [_default_policy_mapping] *)
Definition policy_map : gmap string string :=
  list_to_map
    [ ("execute_refund", "finance.payment.refund.v1");
      ("process_refund", "finance.payment.refund.v1");
      ("refund", "finance.payment.refund.v1");
      ("export_data", "data.export.create.v1");
      ("create_export", "data.export.create.v1");
      ("merge_pull_request", "code.repository.merge.v1");
      ("deploy", "code.deployment.create.v1");
      ("send_message", "messaging.message.send.v1") ].

Definition _default_policy_mapping (function_name : string) : Value :=
  match policy_map !! lower function_name with
  | Some policy_id => VStr policy_id
  | None => VNone
  end.

(** [extract_context_data] *)
Definition extract_context_data (env : Env) (context : AgentRunContext)
  : gmap string Value :=
  list_to_map
    [ ("action", get_or (metadata context) "action" (VStr "unknown"));
      ("resource", get (metadata context) "resource");
      ("amount", get (metadata context) "amount");
      ("currency", get (metadata context) "currency");
      ("region", get (metadata context) "region");
      ("customer_id", get (metadata context) "customer_id");
      ("order_id", get (metadata context) "order_id");
      ("timestamp",
       get_or (metadata context) "timestamp" (VStr (utcnow env)));
      ("message_count", VInt (Z.of_nat (length (messages context)))) ].

(** [extract_function_context_data]: in the dictionary display the
    arguments override [function_name] and [action], and [timestamp]
    overrides the arguments. *)
Definition extract_function_context_data (env : Env)
    (context : FunctionInvocationContext) : gmap string Value :=
  <[ "timestamp" :=
       get_or (fn_metadata context) "timestamp" (VStr (utcnow env)) ]>
    (arguments context ∪
     <[ "action" := get_or (fn_metadata context) "action" (VStr "unknown") ]>
       {[ "function_name" :=
            VStr (default "unknown" (function_name context)) ]}).

(** Field assignments on the context objects. *)
Definition with_terminate (b : bool) (c : AgentRunContext) : AgentRunContext :=
  {| messages := messages c; metadata := metadata c; result := result c;
     terminate := b; is_streaming := is_streaming c |}.

Definition with_result (v : Value) (c : AgentRunContext) : AgentRunContext :=
  {| messages := messages c; metadata := metadata c; result := v;
     terminate := terminate c; is_streaming := is_streaming c |}.

Definition with_metadata (key : string) (v : Value) (c : AgentRunContext)
  : AgentRunContext :=
  {| messages := messages c; metadata := <[key := v]> (metadata c);
     result := result c; terminate := terminate c;
     is_streaming := is_streaming c |}.

Definition fn_with_terminate (b : bool) (c : FunctionInvocationContext)
  : FunctionInvocationContext :=
  {| function_name := function_name c; arguments := arguments c;
     fn_metadata := fn_metadata c; fn_result := fn_result c;
     fn_terminate := b |}.

Definition fn_with_result (v : Value) (c : FunctionInvocationContext)
  : FunctionInvocationContext :=
  {| function_name := function_name c; arguments := arguments c;
     fn_metadata := fn_metadata c; fn_result := v;
     fn_terminate := fn_terminate c |}.

Definition fn_with_metadata (key : string) (v : Value)
    (c : FunctionInvocationContext) : FunctionInvocationContext :=
  {| function_name := function_name c; arguments := arguments c;
     fn_metadata := <[key := v]> (fn_metadata c); fn_result := fn_result c;
     fn_terminate := fn_terminate c |}.

(** Optional attributes written into dictionaries. *)
Definition opt_str (o : option string) : Value :=
  match o with Some s => VStr s | None => VNone end.

Definition opt_int (o : option Z) : Value :=
  match o with Some z => VInt z | None => VNone end.

Definition reason_value (r : Reason) : Value :=
  VDict (match code r with Some c => [("code", VStr c)] | None => [] end
         ++ match reason_message r with
            | Some m => [("message", VStr m)]
            | None => []
            end).

Definition reasons_value (rs : option (list Reason)) : Value :=
  match rs with
  | Some l => VList (map reason_value l)
  | None => VNone
  end.

(** [d.get(key)] on a dictionary value. *)
Fixpoint assoc (key : string) (items : list (string * Value)) : Value :=
  match items with
  | [] => VNone
  | (k, v) :: rest => if String.eqb k key then v else assoc key rest
  end.

Section Functions.
Context {RS : Type}.
Variable env : Env.
Variable client : APortClient RS.

(** [from agent_framework import AgentRunResponse, ChatMessage, Role] *)
Definition import_framework {C} : M C RS unit unit :=
  if framework_available env then ret tt else raise ImportError.

(** [await next(context)]: the rest of the pipeline works on the same
    context object and may raise. *)
Definition call_next {C} (next : C -> C * option Exn) : M C RS unit unit :=
  emit EvNext;;
  c ← read_ctx;
  let '(c', raised) := next c in
  update_ctx (fun _ => c');;
  match raised with
  | Some e => raise e
  | None => ret tt
  end.

Definition set_terminate (b : bool) : M AgentRunContext RS unit unit :=
  update_ctx (with_terminate b).

Definition set_result (v : Value) : M AgentRunContext RS unit unit :=
  update_ctx (with_result v).

Definition set_metadata (key : string) (v : Value)
  : M AgentRunContext RS unit unit :=
  update_ctx (with_metadata key v).

Definition streaming : M AgentRunContext RS unit bool :=
  c ← read_ctx; ret (is_streaming c).

(** The recurring block
    [try: import ...; context.result = AgentRunResponse(text)]
    [except ImportError: context.result = fallback]. *)
Definition respond (text : string) (fallback : Value)
  : M AgentRunContext RS unit unit :=
  try_except
    (import_framework;; set_result (VResponse text))
    (fun e =>
       match e with
       | ImportError => Some (set_result fallback)
       | _ => None
       end).

(** [metadata["error"] = ...; metadata["error_message"] = ...] *)
Definition set_error (error error_message : string)
  : M AgentRunContext RS unit unit :=
  set_metadata "error" (VStr error);;
  set_metadata "error_message" (VStr error_message).

(** [generate_audit_trail]: logs the audit record; any exception while
    building it is logged instead. *)
Definition generate_audit_trail (agent_id : Value)
    (decision : option Decision) : M AgentRunContext RS unit unit :=
  c ← read_ctx;
  match decision with
  | Some d => emit (EvAudit agent_id (VStr (decision_id d)))
  | None =>
      match get_or (metadata c) "aport_decision" (VDict []) with
      | VDict items => emit (EvAudit agent_id (assoc "decision_id" items))
      | _ => emit (EvLog Error)
      end
  end.

(** [reasons_text] of [aport_agent_middleware]:
    [r.get("message", r.get("code", ""))] joined by [", "]. *)
Definition reasons_text (decision : Decision) : string :=
  join ", "
    (map (fun r => default (default "" (code r)) (reason_message r))
         (default [] (reasons decision))).

Definition or_policy_check_failed (text : string) : string :=
  if String.eqb text "" then "Policy check failed" else text.

(** *** [aport_agent_middleware] (function-based agent-run middleware) *)

Definition agent_denied (decision : Decision)
  : M AgentRunContext RS unit unit :=
  emit (EvLog Warning);;
  set_terminate true;;
  s ← streaming;
  (if negb s then
     respond
       ("Authorization denied: "
        ++ or_policy_check_failed (reasons_text decision)
        ++ ". Decision ID: " ++ decision_id decision)
       (VDict [ ("error", VStr "policy_violation");
                ("decision_id", VStr (decision_id decision));
                ("reasons", reasons_value (reasons decision));
                ("message",
                 VStr ("Authorization denied: Decision ID "
                       ++ decision_id decision)) ])
   else
     set_error "policy_violation"
       ("Policy violation: " ++ str_reasons env (reasons decision)));;
  return_ tt.

Definition agent_policy_error (e : AportError)
  : M AgentRunContext RS unit unit :=
  emit (EvLog Error);;
  set_terminate true;;
  s ← streaming;
  (if negb s then
     respond
       ("Authorization failed: " ++ aport_message e
        ++ ". Decision ID: " ++ default "unknown" (aport_decision_id e))
       (VDict [ ("error", VStr "agent_verification_failed");
                ("status", opt_int (status e));
                ("message", VStr (aport_message e));
                ("decision_id", opt_str (aport_decision_id e)) ])
   else
     set_error "agent_verification_failed" (aport_message e));;
  return_ tt.

Definition agent_passport_error (e : AportError)
  : M AgentRunContext RS unit unit :=
  emit (EvLog Error);;
  set_terminate true;;
  s ← streaming;
  (if negb s then
     respond
       ("Agent verification failed: " ++ aport_message e)
       (VDict [ ("error", VStr "agent_verification_failed");
                ("message", VStr (aport_message e)) ])
   else
     set_error "agent_verification_failed" (aport_message e));;
  return_ tt.

Definition agent_unexpected (e : Exn) : M AgentRunContext RS unit unit :=
  emit (EvLog Error);;
  set_terminate true;;
  s ← streaming;
  if negb s then
    respond
      ("Authorization error: " ++ exn_str e)
      (VDict [ ("error", VStr "internal_error");
               ("message", VStr ("Authorization failed: " ++ exn_str e)) ])
  else
    set_error "internal_error" ("Authorization failed: " ++ exn_str e).

Definition aport_agent_middleware
    (next : AgentRunContext -> AgentRunContext * option Exn)
  : M AgentRunContext RS unit unit :=
  try_finally
    (try_except
       (c ← read_ctx;
        let agent_id :=
          py_or (get (metadata c) "agent_id")
                (get (metadata c) "agent_passport_id") in
        when (negb (truthy agent_id))
          (emit (EvLog Warning);;
           set_terminate true;;
           (if negb (is_streaming c) then
              import_framework;;
              set_result
                (VResponse
                   "Authorization failed: Agent ID is required. Please provide 'agent_id' in metadata.")
            else
              set_error "missing_agent_id"
                "Agent ID is required for authorization");;
           return_ tt);;
        let policy_id := get (metadata c) "policy_id" in
        decision ←
          (if truthy policy_id then
             try_except
               (decision ← call_verify_policy client
                  {| req_agent_id := agent_id;
                     req_policy_id := policy_id;
                     req_context := extract_context_data env c;
                     req_idempotency_key :=
                       get (metadata c) "idempotency_key" |};
                set_metadata "aport_decision"
                  (VDict [ ("decision_id", VStr (decision_id decision));
                           ("allow", VBool (allow decision));
                           ("assurance_level",
                            opt_str (assurance_level decision));
                           ("reasons", reasons_value (reasons decision)) ]);;
                when (negb (allow decision)) (agent_denied decision);;
                ret (Some decision))
               (fun e =>
                  match e with
                  | AportErr err =>
                      Some (agent_policy_error err;; ret None)
                  | _ => None
                  end)
           else
             try_except
               (passport_view ← call_get_passport_view client agent_id;
                set_metadata "agent_passport" passport_view;;
                emit (EvLog Info);;
                ret None)
               (fun e =>
                  match e with
                  | AportErr err =>
                      Some (agent_passport_error err;; ret None)
                  | _ => None
                  end));
        call_next next;;
        c' ← read_ctx;
        when (truthy (result c') && negb (terminate c'))
          (generate_audit_trail agent_id decision))
       (fun e => Some (agent_unexpected e)))
    (emit EvClose).

(** *** [aport_function_middleware] (function-calling middleware) *)

Definition fn_set_terminate (b : bool)
  : M FunctionInvocationContext RS unit unit :=
  update_ctx (fn_with_terminate b).

Definition fn_set_result (v : Value)
  : M FunctionInvocationContext RS unit unit :=
  update_ctx (fn_with_result v).

Definition fn_set_metadata (key : string) (v : Value)
  : M FunctionInvocationContext RS unit unit :=
  update_ctx (fn_with_metadata key v).

(** [metadata.get("policy_id") or metadata.get(f"policy_{function_name}")
    or _default_policy_mapping(function_name)] *)
Definition resolve_policy_id (c : FunctionInvocationContext) : Value :=
  let name := default "unknown" (function_name c) in
  py_or (py_or (get (fn_metadata c) "policy_id")
               (get (fn_metadata c) ("policy_" ++ name)))
        (_default_policy_mapping name).

Definition aport_function_middleware
    (next : FunctionInvocationContext
            -> FunctionInvocationContext * option Exn)
  : M FunctionInvocationContext RS unit unit :=
  try_finally
    (try_except
       (c ← read_ctx;
        let agent_id :=
          py_or (get (fn_metadata c) "agent_id")
                (get (fn_metadata c) "agent_passport_id") in
        when (negb (truthy agent_id))
          (emit (EvLog Warning);;
           fn_set_terminate true;;
           fn_set_result
             (VDict [ ("error", VStr "missing_agent_id");
                      ("message",
                       VStr "Agent ID is required for function authorization") ]);;
           return_ tt);;
        let name := default "unknown" (function_name c) in
        let policy_id := resolve_policy_id c in
        when (negb (truthy policy_id))
          (emit (EvLog Warning);;
           (* Continue without authorization if no policy specified *)
           call_next next;;
           return_ tt);;
        try_except
          (decision ← call_verify_policy client
             {| req_agent_id := agent_id;
                req_policy_id := policy_id;
                req_context := extract_function_context_data env c;
                req_idempotency_key :=
                  get (fn_metadata c) "idempotency_key" |};
           fn_set_metadata "aport_decision"
             (VDict [ ("decision_id", VStr (decision_id decision));
                      ("allow", VBool (allow decision));
                      ("function_name", VStr name);
                      ("policy_id", policy_id) ]);;
           when (negb (allow decision))
             (emit (EvLog Warning);;
              fn_set_terminate true;;
              fn_set_result
                (VDict [ ("error", VStr "authorization_denied");
                         ("decision_id", VStr (decision_id decision));
                         ("reasons", reasons_value (reasons decision));
                         ("function_name", VStr name) ]);;
              return_ tt))
          (fun e =>
             match e with
             | AportErr err =>
                 Some (emit (EvLog Error);;
                       fn_set_terminate true;;
                       fn_set_result
                         (VDict [ ("error", VStr "authorization_failed");
                                  ("message", VStr (aport_message err));
                                  ("function_name", VStr name) ]);;
                       return_ tt)
             | _ => None
             end);;
        call_next next)
       (fun e =>
          Some (emit (EvLog Error);;
                fn_set_terminate true;;
                fn_set_result
                  (VDict [ ("error", VStr "internal_error");
                           ("message",
                            VStr ("Authorization failed: " ++ exn_str e)) ]))))
    (emit EvClose).

(** *** [AportAgentMiddleware.process] (class-based agent-run middleware)

    The statements are kept in the order and at the nesting of the
    source: only the warning is under [if not agent_id:]. *)

(** [", ".join([r.get("message", "") for r in decision.reasons])] when
    [decision.reasons] is a non-empty list, else the empty string. *)
Definition process_reasons_text (decision : Decision) : string :=
  join ", "
    (map (fun r => default "" (reason_message r))
         (default [] (reasons decision))).

Definition process
    (next : AgentRunContext -> AgentRunContext * option Exn)
  : M AgentRunContext RS unit unit :=
  try_finally
    (try_except
       (c ← read_ctx;
        let agent_id :=
          py_or (get (metadata c) "agent_id")
                (get (metadata c) "agent_passport_id") in
        when (negb (truthy agent_id)) (emit (EvLog Warning));;
        set_terminate true;;
        when (negb (is_streaming c))
          (respond "Authorization failed: Agent ID is required."
             (VDict [ ("error", VStr "missing_agent_id");
                      ("message",
                       VStr "Agent ID is required for authorization") ]));;
        return_ (A := unit) tt;;
        let policy_id := get (metadata c) "policy_id" in
        decision ←
          (if truthy policy_id then
             decision ← call_verify_policy client
               {| req_agent_id := agent_id;
                  req_policy_id := policy_id;
                  req_context := extract_context_data env c;
                  req_idempotency_key :=
                    get (metadata c) "idempotency_key" |};
             set_metadata "aport_decision"
               (VDict [ ("decision_id", VStr (decision_id decision));
                        ("allow", VBool (allow decision));
                        ("assurance_level",
                         opt_str (assurance_level decision)) ]);;
             when (negb (allow decision))
               (emit (EvLog Warning);;
                set_terminate true;;
                when (negb (is_streaming c))
                  (respond
                     ("Authorization denied: "
                      ++ or_policy_check_failed
                           (process_reasons_text decision))
                     (VDict [ ("error", VStr "policy_violation");
                              ("decision_id",
                               VStr (decision_id decision));
                              ("reasons",
                               reasons_value (reasons decision)) ]));;
                return_ tt);;
             ret (Some decision)
           else ret None);
        call_next next;;
        c' ← read_ctx;
        when (truthy (result c') && negb (terminate c'))
          (generate_audit_trail agent_id decision))
       (fun e =>
          match e with
          | AportErr err =>
              Some (emit (EvLog Error);;
                    set_terminate true;;
                    s ← streaming;
                    when (negb s)
                      (respond
                         ("Authorization failed: " ++ aport_message err)
                         (VDict [ ("error",
                                   VStr "agent_verification_failed");
                                  ("message",
                                   VStr (aport_message err)) ])))
          | _ =>
              Some (emit (EvLog Error);;
                    set_terminate true;;
                    s ← streaming;
                    when (negb s)
                      (respond
                         ("Authorization error: " ++ exn_str e)
                         (VDict [ ("error", VStr "internal_error");
                                  ("message",
                                   VStr ("Authorization failed: "
                                         ++ exn_str e)) ])))
          end))
    (emit EvClose).

(** Calls of the three middlewares from a machine state. *)
Definition run_agent_middleware
    (next : AgentRunContext -> AgentRunContext * option Exn)
    (s : Machine AgentRunContext RS)
  : (Exn + unit) * Machine AgentRunContext RS :=
  run_function tt (aport_agent_middleware next) s.

Definition run_function_middleware
    (next : FunctionInvocationContext
            -> FunctionInvocationContext * option Exn)
    (s : Machine FunctionInvocationContext RS)
  : (Exn + unit) * Machine FunctionInvocationContext RS :=
  run_function tt (aport_function_middleware next) s.

Definition run_process
    (next : AgentRunContext -> AgentRunContext * option Exn)
    (s : Machine AgentRunContext RS)
  : (Exn + unit) * Machine AgentRunContext RS :=
  run_function tt (process next) s.

End Functions.

End Middleware.

(** ** Concrete clients, contexts and callbacks used by the examples *)

Module Examples.
Import Effects.

Definition fresh {C RS} (c : C) (r : RS) : Machine C RS :=
  {| ctx := c; remote := r; trace := [] |}.

(** An authority without deduplication: it counts the verifications it
    has served and stamps each decision with a new identifier. *)
Definition stamping_client : APortClient nat :=
  {| verify_policy := fun served _ =>
       (Returned {| decision_id := if (served =? 0)%nat then "dec_1"
                                   else "dec_2";
                    allow := true;
                    reasons := None;
                    assurance_level := Some "L2" |},
        S served);
     get_passport_view := fun served _ =>
       (PassportView (VDict [("status", VStr "active")]), served) |}.

(** An authority that denies every request. *)
Definition denying_client : APortClient nat :=
  {| verify_policy := fun served _ =>
       (Returned {| decision_id := "dec_denied";
                    allow := false;
                    reasons := Some [ {| code := Some "limit_exceeded";
                                         reason_message :=
                                           Some "Amount exceeds limit" |} ];
                    assurance_level := None |},
        S served);
     get_passport_view := fun served _ =>
       (PassportView (VDict [("status", VStr "active")]), served) |}.

Definition repr_reasons (rs : list Reason) : string := "[...]".

Definition env : Middleware.Env :=
  {| Middleware.framework_available := true;
     Middleware.utcnow := "2025-01-01T00:00:00";
     Middleware.str_reasons := fun _ => "[...]" |}.

Definition refund_context : gmap string Value :=
  {[ "amount" := VInt 5000; "currency" := VStr "USD" ]}.

(** A tool call for a function that no policy is mapped to. *)
Definition weather_call : Middleware.FunctionInvocationContext :=
  {| Middleware.function_name := Some "lookup_weather";
     Middleware.arguments := {[ "city" := VStr "Paris" ]};
     Middleware.fn_metadata := {[ "agent_id" := VStr "ap_test" ]};
     Middleware.fn_result := VNone;
     Middleware.fn_terminate := false |}.

(** An agent run carrying an agent id and a policy id. *)
Definition refund_run : Middleware.AgentRunContext :=
  {| Middleware.messages := [];
     Middleware.metadata :=
       {[ "agent_id" := VStr "ap_test";
          "policy_id" := VStr "finance.payment.refund.v1" ]};
     Middleware.result := VNone;
     Middleware.terminate := false;
     Middleware.is_streaming := false |}.

(** A pipeline tail that produces a result and does not raise. *)
Definition run_agent (c : Middleware.AgentRunContext)
  : Middleware.AgentRunContext * option Exn :=
  (Middleware.with_result (VResponse "done") c, None).

Definition run_tool (c : Middleware.FunctionInvocationContext)
  : Middleware.FunctionInvocationContext * option Exn :=
  (Middleware.fn_with_result (VStr "sunny") c, None).

End Examples.

(** ** The route access block of [demonstrate_capabilities_and_limits]
       (basic_usage.py) *)

Module Routes.

(** [required_levels], in the order the dictionary display lists them. *)
Definition required_levels : list (string * string) :=
  [ ("refunds", "L2"); ("payouts", "L3"); ("admin", "L4KYC") ].

(** One printed line per route: the route, the level it requires and
    [has_access].  Nothing is printed when [passport.get('assurance_level')]
    is missing or empty. *)
Definition route_access (assurance_level : option string)
  : list (string * string * bool) :=
  match assurance_level with
  | None | Some EmptyString => []
  | Some level =>
      map (fun entry : string * string =>
             (fst entry, snd entry,
              Assurance._compare_assurance_levels level (snd entry)))
          required_levels
  end.

(** Whether the block reports access to [route]. *)
Definition has_access (assurance_level : option string) (route : string)
  : bool :=
  existsb (fun line : string * string * bool =>
             String.eqb (fst (fst line)) route && snd line)
          (route_access assurance_level).

End Routes.

(** ** [AportFunctionMiddleware.process] (class-based function-calling
       middleware, aport_middleware.py) *)

Module ClassMiddleware.
Import Effects Middleware.

Section Process.
Context {RS : Type}.
Variable env : Env.
Variable client : APortClient RS.

(** [self.policy_mapping]: the custom mapping given to the constructor
    ([policy_mapping or {}]). *)
Variable policy_mapping : gmap string string.

(** [metadata.get("policy_id") or metadata.get(f"policy_{function_name}")
    or self.policy_mapping.get(function_name)
    or _default_policy_mapping(function_name)] *)
Definition resolve_policy_id (c : FunctionInvocationContext) : Value :=
  let name := default "unknown" (function_name c) in
  py_or (py_or (py_or (get (fn_metadata c) "policy_id")
                      (get (fn_metadata c) ("policy_" ++ name)))
               (opt_str (policy_mapping !! name)))
        (_default_policy_mapping name).

Definition process
    (next : FunctionInvocationContext
            -> FunctionInvocationContext * option Exn)
  : M FunctionInvocationContext RS unit unit :=
  try_finally
    (try_except
       (c ← read_ctx;
        let agent_id :=
          py_or (get (fn_metadata c) "agent_id")
                (get (fn_metadata c) "agent_passport_id") in
        when (negb (truthy agent_id))
          (emit (EvLog Warning);;
           fn_set_terminate true;;
           fn_set_result (VDict [ ("error", VStr "missing_agent_id") ]);;
           return_ tt);;
        let name := default "unknown" (function_name c) in
        let policy_id := resolve_policy_id c in
        when (negb (truthy policy_id))
          ((* Continue without authorization *)
           call_next next;;
           return_ tt);;
        decision ← call_verify_policy client
          {| req_agent_id := agent_id;
             req_policy_id := policy_id;
             req_context := extract_function_context_data env c;
             req_idempotency_key := get (fn_metadata c) "idempotency_key" |};
        fn_set_metadata "aport_decision"
          (VDict [ ("decision_id", VStr (decision_id decision));
                   ("allow", VBool (allow decision));
                   ("function_name", VStr name) ]);;
        when (negb (allow decision))
          (emit (EvLog Warning);;
           fn_set_terminate true;;
           fn_set_result
             (VDict [ ("error", VStr "authorization_denied");
                      ("decision_id", VStr (decision_id decision));
                      ("reasons", reasons_value (reasons decision)) ]);;
           return_ tt);;
        call_next next)
       (fun e =>
          match e with
          | AportErr err =>
              Some (emit (EvLog Error);;
                    fn_set_terminate true;;
                    fn_set_result
                      (VDict [ ("error", VStr "authorization_failed");
                               ("message", VStr (aport_message err)) ]))
          | _ =>
              Some (emit (EvLog Error);;
                    fn_set_terminate true;;
                    fn_set_result
                      (VDict [ ("error", VStr "internal_error");
                               ("message",
                                VStr ("Authorization failed: "
                                      ++ exn_str e)) ]))
          end))
    (emit EvClose).

Definition run_process
    (next : FunctionInvocationContext
            -> FunctionInvocationContext * option Exn)
    (s : Machine FunctionInvocationContext RS)
  : (Exn + unit) * Machine FunctionInvocationContext RS :=
  run_function tt (process next) s.

End Process.

(** The effects other than logging. *)
Definition not_log (e : Event) : bool :=
  match e with EvLog _ => false | _ => true end.

End ClassMiddleware.

(** ** The [/api/refunds/create] endpoint (mcp_enforcement.py) *)

Module Endpoints.
Import Effects.

(** The pydantic model [RefundRequest]. *)
Record RefundRequest := {
  amount : Z;
  currency : string;
  customer_id : string;
  order_id : string;
  reason_code : string;
  region : string;
  idempotency_key : option string
}.

(** The two SDK calls the endpoint makes.  [get_passport_view] raises only
    [AportError] here; [verify_policy] may raise anything. *)
Record Client (RS : Type) := {
  get_passport_view : RS -> string -> MCP.PassportFetch * RS;
  verify_policy :
    RS -> string -> string -> gmap string Value -> VerifyOutcome * RS
}.
Arguments get_passport_view {RS}.
Arguments verify_policy {RS}.

(** The client calls made while serving a request, in order. *)
Inductive Call :=
| GetPassportView (agent_id : string)
| VerifyPolicy (agent_id policy_id : string) (context : gmap string Value).

(** [HTTPException(status_code=..., detail={...})] *)
Record HTTPException := {
  status_code : Z;
  detail : list (string * Value)
}.

(** The dictionary a successful request returns. *)
Record RefundResponse := {
  success : bool;
  refund_id : string;
  resp_amount : Z;
  resp_currency : string;
  resp_customer_id : string;
  resp_order_id : string;
  resp_decision_id : string;
  processed_via_mcp : bool;
  resp_mcp_servers : list string;
  resp_mcp_tools : list string;
  resp_mcp_session : option string
}.

(** How a request ends: a response, an [HTTPException], or another
    exception that leaves the handler. *)
Inductive Outcome :=
| Responded (response : RefundResponse)
| HttpError (e : HTTPException)
| Unhandled (e : Exn).

(** [if s:] on an optional string. *)
Definition nonempty (o : option string) : bool :=
  match o with
  | None | Some EmptyString => false
  | Some _ => true
  end.

(** [if l:] on a list. *)
Definition nonempty_list {A} (l : list A) : bool :=
  match l with [] => false | _ :: _ => true end.

(** [mcp_headers.get("servers") or mcp_headers.get("tools")] *)
Definition has_mcp (h : MCP.McpHeaders) : bool :=
  nonempty_list (MCP.servers h) || nonempty_list (MCP.tools h).

(** The [HTTPException] that [validate_mcp_against_passport] raises, with
    its [detail] dictionary. *)
Definition of_mcp (e : MCP.HTTPException) : HTTPException :=
  {| status_code := MCP.status_code e;
     detail := [ ("error", VStr (MCP.error e));
                 ("message", VStr (MCP.message e)) ] |}.

Definition missing_agent_id : HTTPException :=
  {| status_code := 401;
     detail := [ ("error", VStr "missing_agent_id");
                 ("message", VStr "Agent ID is required") ] |}.

(** [refund_data.idempotency_key or
    f"refund_{request.headers.get('X-Request-ID', 'unknown')}"] *)
Definition effective_idempotency_key (request : MCP.Request)
    (refund_data : RefundRequest) : string :=
  match idempotency_key refund_data with
  | Some (String c rest) => String c rest
  | _ => "refund_" ++ default "unknown" (MCP.headers request !! "X-Request-ID")
  end.

(** [context[key] = value] under [if cond:]. *)
Definition set_if (cond : bool) (key : string) (v : Value)
    (context : gmap string Value) : gmap string Value :=
  if cond then <[key := v]> context else context.

Definition str_list (l : list string) : Value := VList (map VStr l).

(** The [context] dictionary sent to [verify_policy]. *)
Definition refund_context (request : MCP.Request)
    (refund_data : RefundRequest) (mcp_headers : MCP.McpHeaders)
  : gmap string Value :=
  let base : gmap string Value :=
    list_to_map
      [ ("amount", VInt (amount refund_data));
        ("currency", VStr (currency refund_data));
        ("customer_id", VStr (customer_id refund_data));
        ("order_id", VStr (order_id refund_data));
        ("reason_code", VStr (reason_code refund_data));
        ("region", VStr (region refund_data));
        ("idempotency_key",
         VStr (effective_idempotency_key request refund_data)) ] in
  set_if (nonempty (MCP.session mcp_headers)) "mcp_session"
    (VStr (default "" (MCP.session mcp_headers)))
    (set_if (nonempty (MCP.tool mcp_headers)) "mcp_tool"
       (VStr (default "" (MCP.tool mcp_headers)))
       (set_if (nonempty (MCP.server mcp_headers)) "mcp_server"
          (VStr (default "" (MCP.server mcp_headers)))
          (set_if (nonempty_list (MCP.tools mcp_headers)) "mcp_tools"
             (str_list (MCP.tools mcp_headers))
             (set_if (nonempty_list (MCP.servers mcp_headers)) "mcp_servers"
                (str_list (MCP.servers mcp_headers)) base)))).

Section CreateRefund.
Context {RS : Type}.
Variable client : Client RS.

(** The nine random characters of [refund_id]. *)
Variable random_suffix : string.

(** The part of the handler after the MCP validation: one
    [client.verify_policy] call inside [try: ... except AportError]. *)
Definition verify_and_process (request : MCP.Request)
    (refund_data : RefundRequest) (agent_id : string)
    (mcp_headers : MCP.McpHeaders) (rs : RS) (calls : list Call)
  : Outcome * RS * list Call :=
  let context := refund_context request refund_data mcp_headers in
  let '(out, rs') :=
    verify_policy client rs agent_id "finance.payment.refund.v1" context in
  let calls' :=
    (calls ++ [VerifyPolicy agent_id "finance.payment.refund.v1" context])%list
  in
  match out with
  | Returned decision =>
      if negb (allow decision) then
        (HttpError
           {| status_code := 403;
              detail := [ ("error", VStr "policy_violation");
                          ("message", VStr "Policy verification denied");
                          ("decision_id", VStr (decision_id decision));
                          ("reasons",
                           Middleware.reasons_value (reasons decision)) ] |},
         rs', calls')
      else
        (Responded
           {| success := true;
              refund_id := "ref_" ++ random_suffix;
              resp_amount := amount refund_data;
              resp_currency := currency refund_data;
              resp_customer_id := customer_id refund_data;
              resp_order_id := order_id refund_data;
              resp_decision_id := decision_id decision;
              processed_via_mcp := has_mcp mcp_headers;
              resp_mcp_servers := MCP.servers mcp_headers;
              resp_mcp_tools := MCP.tools mcp_headers;
              resp_mcp_session := MCP.session mcp_headers |},
         rs', calls')
  | VerifyRaised (AportErr e) =>
      (HttpError
         {| status_code := default 500%Z (status e);
            detail := [ ("error", VStr "policy_verification_failed");
                        ("message", VStr (aport_message e));
                        ("decision_id",
                         Middleware.opt_str (aport_decision_id e)) ] |},
       rs', calls')
  | VerifyRaised e => (Unhandled e, rs', calls')
  end.

(** [create_refund]: the agent id check, the MCP validation when MCP
    headers are present, then the policy verification. *)
Definition create_refund (request : MCP.Request)
    (refund_data : RefundRequest) (x_agent_passport_id : option string)
    (rs : RS) : Outcome * RS * list Call :=
  match x_agent_passport_id with
  | None | Some EmptyString => (HttpError missing_agent_id, rs, [])
  | Some agent_id =>
      let mcp_headers := MCP.extract_mcp_headers request in
      if has_mcp mcp_headers then
        let '(fetch, rs1) := get_passport_view client rs agent_id in
        match MCP.validate_mcp_against_passport fetch mcp_headers with
        | inl e => (HttpError (of_mcp e), rs1, [GetPassportView agent_id])
        | inr _ =>
            verify_and_process request refund_data agent_id mcp_headers rs1
              [GetPassportView agent_id]
        end
      else
        verify_and_process request refund_data agent_id mcp_headers rs []
  end.

End CreateRefund.

Definition is_verify_call (c : Call) : bool :=
  match c with VerifyPolicy _ _ _ => true | GetPassportView _ => false end.

Definition is_passport_call (c : Call) : bool :=
  match c with GetPassportView _ => true | VerifyPolicy _ _ _ => false end.

(** *** [global_exception_handler] *)

(** [p] is a prefix of [s]. *)
Fixpoint is_prefix (p s : string) : bool :=
  match p, s with
  | EmptyString, _ => true
  | String a p', String b s' => Ascii.eqb a b && is_prefix p' s'
  | String _ _, EmptyString => false
  end.

(** [needle in haystack] *)
Fixpoint str_contains (needle haystack : string) : bool :=
  is_prefix needle haystack
  || match haystack with
     | EmptyString => false
     | String _ rest => str_contains needle rest
     end.

(** [JSONResponse(status_code=..., content={"error": ..., "message": ...})] *)
Record JSONResponse := {
  json_status : Z;
  json_error : string;
  json_message : string
}.

(** [global_exception_handler], as a function of [str(exc)] (taken with
    code points below 256, for [str.lower]). *)
Definition global_exception_handler (exc_str : string) : JSONResponse :=
  if str_contains "MCP" exc_str then
    {| json_status := 403; json_error := "mcp_enforcement_failed";
       json_message := exc_str |}
  else if str_contains "Agent Passport" exc_str
          || str_contains "agent" (Middleware.lower exc_str) then
    {| json_status := 401; json_error := "authentication_failed";
       json_message := exc_str |}
  else
    {| json_status := 500; json_error := "internal_server_error";
       json_message := "An unexpected error occurred" |}.

End Endpoints.

(** ** Reading aids for the event logs of [verify_with_retry] *)

Module RetryLog.

(** The pauses made, in order. *)
Definition sleeps (events : list Retry.Event) : list Z :=
  omap (fun e => match e with
                 | Retry.Sleep seconds => Some seconds
                 | Retry.Call _ => None
                 end) events.

Definition is_call (e : Retry.Event) : bool :=
  match e with Retry.Call _ => true | Retry.Sleep _ => false end.

(** A server that is rate limited twice, then answers. *)
Definition limited_then_ok (attempt : nat) : Retry.Outcome :=
  if (attempt <? 3)%nat
  then Retry.Response 429
         (Retry.JsonObject (Some (Retry.Seconds 7)) "slow down")
  else Retry.Response 200 (Retry.JsonObject None "passport").

End RetryLog.

(** ** Requests and passports used by the examples of the MCP properties *)

Module RequestExamples.

(** The plural servers header together with a singular one. *)
Definition both_headers : MCP.Request :=
  {| MCP.headers :=
       {[ "X-MCP-Servers" := "https://mcp.stripe.com , https://mcp.notion.com";
          "X-MCP-Server" := "https://mcp.other.example" ]} |}.

Definition wide_passport : MCP.PassportView :=
  {| MCP.mcp := Some {| MCP.mcp_servers := Some ["A"; "B"];
                        MCP.mcp_tools := Some ["X"] |} |}.

Definition two_servers : MCP.McpHeaders :=
  {| MCP.servers := ["A"; "B"]; MCP.tools := ["X"]; MCP.session := None;
     MCP.server := Some "A"; MCP.tool := Some "X" |}.

Definition one_server : MCP.McpHeaders :=
  {| MCP.servers := ["A"]; MCP.tools := ["X"]; MCP.session := None;
     MCP.server := Some "A"; MCP.tool := Some "X" |}.

End RequestExamples.

(** ** Reading aids for the results the middlewares leave in the context *)

Module Outcomes.
Import Effects.

(** [result["error"]] when the result is a dictionary holding a string
    under that key. *)
Definition error_code (result : Value) : option string :=
  match result with
  | VDict items =>
      match Middleware.assoc "error" items with
      | VStr code => Some code
      | _ => None
      end
  | _ => None
  end.

(** A tool that raises. *)
Definition failing_tool (c : Middleware.FunctionInvocationContext)
  : Middleware.FunctionInvocationContext * option Exn :=
  (c, Some (OtherException "payment processor unreachable")).

(** A tool call for a function the default mapping knows. *)
Definition refund_call : Middleware.FunctionInvocationContext :=
  {| Middleware.function_name := Some "Process_Refund";
     Middleware.arguments :=
       {[ "amount" := VInt 5000; "function_name" := VStr "lookup_weather" ]};
     Middleware.fn_metadata := {[ "agent_id" := VStr "ap_test" ]};
     Middleware.fn_result := VNone;
     Middleware.fn_terminate := false |}.

(** An agent run without an agent id. *)
Definition anonymous_run : Middleware.AgentRunContext :=
  {| Middleware.messages := [];
     Middleware.metadata :=
       {[ "policy_id" := VStr "finance.payment.refund.v1" ]};
     Middleware.result := VNone;
     Middleware.terminate := false;
     Middleware.is_streaming := true |}.

End Outcomes.

(** ** Clients and requests used by the examples of the endpoint properties *)

Module EndpointExamples.
Import Effects.

(** A client whose passport allows server A and tool X and whose policy
    verification allows. *)
Definition allowing_client : Endpoints.Client nat :=
  {| Endpoints.get_passport_view := fun served _ =>
       (MCP.Fetched MCP.example_passport, served);
     Endpoints.verify_policy := fun served _ _ _ =>
       (Returned {| decision_id := "dec_1"; allow := true;
                    reasons := None; assurance_level := Some "L2" |},
        S served) |}.

Definition refund_data : Endpoints.RefundRequest :=
  {| Endpoints.amount := 5000;
     Endpoints.currency := "USD";
     Endpoints.customer_id := "cust_123";
     Endpoints.order_id := "order_456";
     Endpoints.reason_code := "customer_request";
     Endpoints.region := "US";
     Endpoints.idempotency_key := None |}.

(** A request through a server that is not on the allowlist. *)
Definition unlisted_server_request : MCP.Request :=
  {| MCP.headers := {[ "X-MCP-Server" := "B" ]} |}.

(** A request through the allowed server and tool. *)
Definition listed_request : MCP.Request :=
  {| MCP.headers := {[ "X-MCP-Servers" := "A"; "X-MCP-Tools" := "X";
                       "X-Request-ID" := "req-7" ]} |}.

End EndpointExamples.

(** * Properties *)

Lemma str_in_true (x : string) (l : list string) :
  str_in x l = true <-> In x l.
Proof.
  unfold str_in. rewrite existsb_exists. split.
  - intros [y [Hin Heq]]. apply String.eqb_eq in Heq. now subst.
  - intros Hin. exists x. split; [assumption | apply String.eqb_refl].
Qed.

Lemma str_in_false (x : string) (l : list string) :
  str_in x l = false <-> ~ In x l.
Proof.
  rewrite <- str_in_true. destruct (str_in x l); split; congruence.
Qed.

Lemma index_Some_nth (l : list string) (x : string) (i : nat) :
  index l x = Some i -> nth_error l i = Some x.
Proof.
  revert i. induction l as [|y rest IH]; simpl; intros i H; [discriminate|].
  destruct (String.eqb_spec y x) as [->|Hne].
  - now inversion H.
  - destruct (index rest x) as [j|] eqn:E; [|discriminate].
    inversion H; subst. simpl. now apply IH.
Qed.

Lemma index_None_notin (l : list string) (x : string) :
  index l x = None <-> ~ In x l.
Proof.
  induction l as [|y rest IH]; simpl.
  - tauto.
  - destruct (String.eqb_spec y x) as [->|Hne].
    + split; [discriminate | intros H; exfalso; apply H; now left].
    + destruct (index rest x) as [j|] eqn:E.
      * split; [discriminate|]. intros H. exfalso.
        assert (Hn : ~ In x rest) by (intros Hin; apply H; now right).
        apply IH in Hn. discriminate.
      * split; [|reflexivity]. intros _ [Heq|Hin]; [congruence|].
        now apply (proj1 IH).
Qed.

(** * Assurance levels *)

Lemma index_lt_length (l : list string) (x : string) (i : nat) :
  index l x = Some i -> (i < length l)%nat.
Proof.
  intros H. apply index_Some_nth in H.
  apply nth_error_Some. congruence.
Qed.

(** C4. The comparator follows the order of the tier list: it answers
    [true] exactly when both names are in the list and the position of
    [current] is at least the position of [required]; L0 < L1 < L2 < L3 sit
    at positions 0..3, so [compare(L2, L3)] is false and [compare(L3, L2)]
    is true; a name outside the list, on either side, gives [false]. *)
Theorem C4_compare_assurance_levels_order (current required : string) :
  (Assurance._compare_assurance_levels current required = true <->
   exists i j,
     index Assurance.levels current = Some i /\
     index Assurance.levels required = Some j /\ (j <= i)%nat)
  /\ (~ In current Assurance.levels ->
      Assurance._compare_assurance_levels current required = false)
  /\ (~ In required Assurance.levels ->
      Assurance._compare_assurance_levels current required = false)
  /\ index Assurance.levels "L0" = Some 0%nat
  /\ index Assurance.levels "L1" = Some 1%nat
  /\ index Assurance.levels "L2" = Some 2%nat
  /\ index Assurance.levels "L3" = Some 3%nat
  /\ Assurance._compare_assurance_levels "L2" "L3" = false
  /\ Assurance._compare_assurance_levels "L3" "L2" = true.
Proof.
  unfold Assurance._compare_assurance_levels.
  split; [|split; [|split]].
  - destruct (index Assurance.levels current) as [i|] eqn:Hc.
    + destruct (index Assurance.levels required) as [j|] eqn:Hr.
      * rewrite Nat.leb_le. split.
        -- intros Hle. exists i, j. auto.
        -- intros (i' & j' & Hi & Hj & Hle). congruence.
      * split; [discriminate|]. intros (i' & j' & _ & Hj & _). discriminate.
    + split; [discriminate|]. intros (i' & j' & Hi & _). discriminate.
  - intros Hnot. apply index_None_notin in Hnot. now rewrite Hnot.
  - intros Hnot. apply index_None_notin in Hnot. rewrite Hnot.
    now destruct (index Assurance.levels current).
  - repeat split; reflexivity.
Qed.

Lemma C4_compare_assurance_levels_order_witness :
  Assurance._compare_assurance_levels "L5" "L1" = false
  /\ Assurance._compare_assurance_levels "L1" "gold" = false.
Proof.
  split.
  - destruct (C4_compare_assurance_levels_order "L5" "L1") as (_ & H & _).
    apply H. vm_compute. intuition discriminate.
  - destruct (C4_compare_assurance_levels_order "L1" "gold") as (_ & _ & H & _).
    apply H. vm_compute. intuition discriminate.
Defined.

(** C5 as stated fails: an agent holding the financial-grade tier passes a
    requirement for the KYC-grade tier. *)
Lemma C5_top_tiers_not_independent :
  ~ (Assurance._compare_assurance_levels "L4FIN" "L4KYC" = false
     /\ Assurance._compare_assurance_levels "L4KYC" "L4FIN" = false).
Proof. vm_compute. intros [H _]. discriminate. Qed.

(** C5, amended. The six tiers form one chain
    L0 < L1 < L2 < L3 < L4KYC < L4FIN: any two known tiers are comparable,
    both top tiers satisfy an L3 requirement and L3 satisfies neither of
    them, L4FIN satisfies an L4KYC requirement, and L4KYC does not satisfy
    an L4FIN requirement. *)
Theorem C5_top_tiers_form_a_chain (current required : string) :
  In current Assurance.levels -> In required Assurance.levels ->
  (Assurance._compare_assurance_levels current required = true
   \/ Assurance._compare_assurance_levels required current = true)
  /\ Assurance._compare_assurance_levels "L4KYC" "L3" = true
  /\ Assurance._compare_assurance_levels "L4FIN" "L3" = true
  /\ Assurance._compare_assurance_levels "L3" "L4KYC" = false
  /\ Assurance._compare_assurance_levels "L3" "L4FIN" = false
  /\ Assurance._compare_assurance_levels "L4FIN" "L4KYC" = true
  /\ Assurance._compare_assurance_levels "L4KYC" "L4FIN" = false.
Proof.
  intros Hc Hr. split; [|repeat split; reflexivity].
  unfold Assurance._compare_assurance_levels.
  destruct (index Assurance.levels current) as [i|] eqn:Ei.
  2:{ apply index_None_notin in Ei. contradiction. }
  destruct (index Assurance.levels required) as [j|] eqn:Ej.
  2:{ apply index_None_notin in Ej. contradiction. }
  destruct (Nat.leb_spec j i) as [Hle|Hlt]; [now left|right].
  apply Nat.leb_le. lia.
Qed.

Lemma C5_top_tiers_form_a_chain_witness :
  Assurance._compare_assurance_levels "L4KYC" "L4FIN" = true
  \/ Assurance._compare_assurance_levels "L4FIN" "L4KYC" = true.
Proof.
  apply (C5_top_tiers_form_a_chain "L4KYC" "L4FIN"); vm_compute; tauto.
Defined.

(** * Per-transaction limit *)




(** * Retry loop *)








(** A [retryAfter] that [time.sleep] refuses is not slept: the exception
    handler pauses for [2 ** attempt] instead. *)
Lemma refused_retry_after_falls_back :
  Retry.verify_with_retry Retry.cpython_max_sleep Retry.absurd_retry_after 3
  = (Retry.Returned (Some (Retry.JsonObject None "passport")),
     [Retry.Call 1; Retry.Sleep 2; Retry.Call 2]).
Proof. reflexivity. Qed.

(** With a cap large enough for [2 ** attempt] to exceed what [time.sleep]
    accepts, the exception of the handler's own [time.sleep] leaves the
    function after attempt 34. *)
Lemma refused_backoff_escapes :
  let run := Retry.verify_with_retry Retry.cpython_max_sleep
               (fun _ => Retry.Raised) 40 in
  fst run = Retry.Escaped /\ Retry.calls (snd run) = seq 1 34.
Proof. vm_compute. split; reflexivity. Qed.



(** * MCP allowlist validation *)

Lemma unauthorized_nil (requested allowed : list string) :
  MCP.unauthorized requested allowed = [] <->
  (forall x, In x requested -> In x allowed).
Proof.
  unfold MCP.unauthorized. induction requested as [|y rest IH]; simpl.
  - split; [intros _ x []|reflexivity].
  - destruct (str_in y allowed) eqn:E; simpl.
    + apply str_in_true in E. rewrite IH. split.
      * intros H x [<-|Hx]; [exact E|now apply H].
      * intros H x Hx. apply H. now right.
    + apply str_in_false in E. split; [discriminate|].
      intros H. exfalso. apply E, H. now left.
Qed.

Lemma unauthorized_In (requested allowed : list string) (x : string) :
  In x (MCP.unauthorized requested allowed) <->
  In x requested /\ ~ In x allowed.
Proof.
  unfold MCP.unauthorized. rewrite filter_In, negb_true_iff, str_in_false.
  reflexivity.
Qed.

(** The two truthiness guards are redundant: the validation is a cascade
    over the two difference lists. *)
Lemma validate_fetched_cascade (passport : MCP.PassportView)
    (h : MCP.McpHeaders) :
  MCP.validate_fetched passport h =
  match MCP.unauthorized (MCP.servers h) (MCP.allowed_servers passport) with
  | (_ :: _) as unauthorized_servers =>
      inl (MCP.server_not_allowed unauthorized_servers
             (MCP.allowed_servers passport))
  | [] =>
      match MCP.unauthorized (MCP.tools h) (MCP.allowed_tools passport) with
      | (_ :: _) as unauthorized_tools =>
          inl (MCP.tool_not_allowed unauthorized_tools
                 (MCP.allowed_tools passport))
      | [] => inr true
      end
  end.
Proof.
  unfold MCP.validate_fetched.
  destruct (MCP.servers h) as [|s ss] eqn:Es;
    destruct (MCP.tools h) as [|t ts] eqn:Et; try reflexivity.
  all: destruct (MCP.unauthorized _ (MCP.allowed_servers passport));
    reflexivity.
Qed.

(** C3. Given the passport's allowlist, validation passes exactly when every
    requested server and every requested tool is on it; otherwise the whole
    request is denied with a 403, so a single entry outside the allowlist is
    enough to deny; with no requested server and no requested tool it
    passes. *)
Theorem C3_mcp_validation_conjunctive
    (passport : MCP.PassportView) (h : MCP.McpHeaders) :
  (MCP.validate_mcp_against_passport (MCP.Fetched passport) h = inr true <->
   (forall s, In s (MCP.servers h) -> In s (MCP.allowed_servers passport))
   /\ (forall t, In t (MCP.tools h) -> In t (MCP.allowed_tools passport)))
  /\ (forall x,
        (In x (MCP.servers h) /\ ~ In x (MCP.allowed_servers passport))
        \/ (In x (MCP.tools h) /\ ~ In x (MCP.allowed_tools passport)) ->
        exists e,
          MCP.validate_mcp_against_passport (MCP.Fetched passport) h = inl e
          /\ MCP.status_code e = 403%Z)
  /\ (MCP.servers h = [] -> MCP.tools h = [] ->
      MCP.validate_mcp_against_passport (MCP.Fetched passport) h = inr true).
Proof.
  simpl. rewrite validate_fetched_cascade.
  destruct (MCP.unauthorized (MCP.servers h) (MCP.allowed_servers passport))
    as [|us uss] eqn:Es.
  - pose proof (proj1 (unauthorized_nil _ _) Es) as Hs.
    destruct (MCP.unauthorized (MCP.tools h) (MCP.allowed_tools passport))
      as [|ut uts] eqn:Et.
    + pose proof (proj1 (unauthorized_nil _ _) Et) as Ht. split; [|split].
      * split; [intros _; split; assumption | reflexivity].
      * intros x [[Hx Hn]|[Hx Hn]]; exfalso; apply Hn; [now apply Hs|now apply Ht].
      * reflexivity.
    + assert (Hut : In ut (MCP.tools h) /\ ~ In ut (MCP.allowed_tools passport)).
      { apply unauthorized_In. rewrite Et. now left. }
      split; [|split].
      * split; [discriminate|]. intros [_ Ht]. exfalso.
        destruct Hut as [Hin Hn]. apply Hn, Ht, Hin.
      * intros x _. eexists. split; reflexivity.
      * intros _ Hnil. rewrite Hnil in Hut. destruct Hut as [[] _].
  - assert (Hus : In us (MCP.servers h)
                  /\ ~ In us (MCP.allowed_servers passport)).
    { apply unauthorized_In. rewrite Es. now left. }
    split; [|split].
    + split; [discriminate|]. intros [Hs _]. exfalso.
      destruct Hus as [Hin Hn]. apply Hn, Hs, Hin.
    + intros x _. eexists. split; reflexivity.
    + intros Hnil _. rewrite Hnil in Hus. destruct Hus as [[] _].
Qed.

Lemma C3_mcp_validation_conjunctive_witness :
  exists e,
    MCP.validate_mcp_against_passport
      (MCP.Fetched MCP.example_passport) MCP.example_request = inl e
    /\ MCP.status_code e = 403%Z.
Proof.
  destruct (C3_mcp_validation_conjunctive
              MCP.example_passport MCP.example_request) as (_ & H & _).
  apply (H "B"). left. split.
  - vm_compute. right. now left.
  - vm_compute. intros [H1|[]]. discriminate.
Defined.

(** C6 as stated fails: a failure does not carry both difference sets.
    Two requests that differ in their unauthorized tools are denied with the
    very same exception, which names the unauthorized server only. *)
Lemma C6_failure_does_not_carry_tools :
  ~ (exists decode : MCP.HTTPException -> list string * list string,
       forall (passport : MCP.PassportView) (h : MCP.McpHeaders)
              (e : MCP.HTTPException),
         MCP.validate_mcp_against_passport (MCP.Fetched passport) h = inl e ->
         decode e
         = (MCP.unauthorized (MCP.servers h) (MCP.allowed_servers passport),
            MCP.unauthorized (MCP.tools h) (MCP.allowed_tools passport)))
  /\ MCP.validate_mcp_against_passport
       (MCP.Fetched MCP.example_passport) MCP.request_tool_bad
     = inl {| MCP.status_code := 403;
              MCP.error := "mcp_server_not_allowed";
              MCP.message :=
                "MCP server(s) B not in passport allowlist. Allowed servers: A" |}.
Proof.
  split; [|reflexivity].
  intros [decode H].
  pose proof (H MCP.example_passport MCP.request_tool_ok _ eq_refl) as H1.
  pose proof (H MCP.example_passport MCP.request_tool_bad _ eq_refl) as H2.
  vm_compute in H1, H2. rewrite H1 in H2. discriminate.
Qed.

(** C6, amended. Validation looks at the servers first.  When
    [requested_servers - allowlist.servers] is not empty the failure is
    [mcp_server_not_allowed] (403) and names exactly that difference, and
    the tools are not looked at; otherwise, when
    [requested_tools - allowlist.tools] is not empty, the failure is
    [mcp_tool_not_allowed] (403) and names exactly that difference;
    otherwise validation passes.  A difference holds the requested entries
    missing from the allowlist.  The example request is denied naming
    server B. *)
Theorem C6_failure_names_first_difference
    (passport : MCP.PassportView) (h : MCP.McpHeaders) :
  let unauthorized_servers :=
    MCP.unauthorized (MCP.servers h) (MCP.allowed_servers passport) in
  let unauthorized_tools :=
    MCP.unauthorized (MCP.tools h) (MCP.allowed_tools passport) in
  (unauthorized_servers <> [] ->
   MCP.validate_mcp_against_passport (MCP.Fetched passport) h
   = inl (MCP.server_not_allowed unauthorized_servers
            (MCP.allowed_servers passport)))
  /\ (unauthorized_servers = [] -> unauthorized_tools <> [] ->
      MCP.validate_mcp_against_passport (MCP.Fetched passport) h
      = inl (MCP.tool_not_allowed unauthorized_tools
               (MCP.allowed_tools passport)))
  /\ (unauthorized_servers = [] -> unauthorized_tools = [] ->
      MCP.validate_mcp_against_passport (MCP.Fetched passport) h = inr true)
  /\ (forall x, In x unauthorized_servers <->
                In x (MCP.servers h) /\ ~ In x (MCP.allowed_servers passport))
  /\ (forall x, In x unauthorized_tools <->
                In x (MCP.tools h) /\ ~ In x (MCP.allowed_tools passport))
  /\ MCP.validate_mcp_against_passport
       (MCP.Fetched MCP.example_passport) MCP.example_request
     = inl {| MCP.status_code := 403;
              MCP.error := "mcp_server_not_allowed";
              MCP.message :=
                "MCP server(s) B not in passport allowlist. Allowed servers: A" |}.
Proof.
  intros us ut. subst us ut. simpl MCP.validate_mcp_against_passport.
  rewrite validate_fetched_cascade.
  split; [|split; [|split; [|split; [|split]]]].
  - intros Hne.
    destruct (MCP.unauthorized (MCP.servers h) (MCP.allowed_servers passport));
      [contradiction | reflexivity].
  - intros -> Hne.
    destruct (MCP.unauthorized (MCP.tools h) (MCP.allowed_tools passport));
      [contradiction | reflexivity].
  - intros -> ->. reflexivity.
  - intros x. apply unauthorized_In.
  - intros x. apply unauthorized_In.
  - reflexivity.
Qed.

Lemma C6_failure_names_first_difference_witness :
  MCP.validate_mcp_against_passport
    (MCP.Fetched MCP.example_passport) MCP.request_tool_bad
  = inl (MCP.server_not_allowed ["B"] ["A"]).
Proof.
  destruct (C6_failure_names_first_difference
              MCP.example_passport MCP.request_tool_bad) as (H & _).
  apply H. vm_compute. discriminate.
Defined.

(** * MCP header extraction *)

Lemma split_nonempty (sep : ascii) (s : string) : MCP.split sep s <> [].
Proof.
  destruct s as [|c rest]; simpl; [discriminate|].
  destruct (Ascii.eqb c sep); [discriminate|].
  destruct (MCP.split sep rest); discriminate.
Qed.

(** Joining the fields with the separator gives the header back. *)
Lemma join_split (sep : ascii) (s : string) :
  join (String sep EmptyString) (MCP.split sep s) = s.
Proof.
  induction s as [|c rest IH]; simpl; [reflexivity|].
  destruct (Ascii.eqb_spec c sep) as [->|Hne].
  - pose proof (split_nonempty sep rest) as Hn.
    destruct (MCP.split sep rest) as [|f fs]; [contradiction|].
    simpl in *. now rewrite IH.
  - pose proof (split_nonempty sep rest) as Hn.
    destruct (MCP.split sep rest) as [|f fs]; [contradiction|].
    destruct fs as [|g gs]; simpl in *; now rewrite <- IH.
Qed.

Lemma split_fields_no_sep (sep : ascii) (s : string) :
  Forall (fun f => MCP.contains sep f = false) (MCP.split sep s).
Proof.
  induction s as [|c rest IH]; simpl.
  - constructor; [reflexivity|constructor].
  - destruct (Ascii.eqb c sep) eqn:E.
    + constructor; [reflexivity|exact IH].
    + destruct (MCP.split sep rest) as [|f fs].
      * constructor; [simpl; now rewrite E|constructor].
      * inversion IH; subst. constructor; [simpl; now rewrite E|assumption].
Qed.

Lemma contains_app (ch : ascii) (a b : string) :
  MCP.contains ch (a ++ b) = MCP.contains ch a || MCP.contains ch b.
Proof.
  induction a as [|c rest IH]; simpl; [reflexivity|].
  rewrite IH. now rewrite orb_assoc.
Qed.

Lemma append_String (c : ascii) (a b : string) :
  String c a ++ b = String c (a ++ b).
Proof. reflexivity. Qed.

Lemma append_empty (b : string) : "" ++ b = b.
Proof. reflexivity. Qed.

Lemma lstrip_spec (s : string) :
  exists pre, s = pre ++ MCP.lstrip s /\ MCP.all_space pre = true
              /\ MCP.not_space (MCP.first_char (MCP.lstrip s)) = true.
Proof.
  induction s as [|c rest IH]; simpl.
  - exists "". auto.
  - destruct (MCP.is_space c) eqn:E.
    + destruct IH as (pre & Heq & Hsp & Hfirst).
      exists (String c pre). simpl. rewrite E, Hsp.
      split; [rewrite append_String; f_equal; exact Heq|].
      split; [reflexivity | exact Hfirst].
    + exists "". simpl. now rewrite E.
Qed.

Lemma rstrip_spec (s : string) :
  exists post, s = MCP.rstrip s ++ post /\ MCP.all_space post = true
               /\ MCP.not_space (MCP.last_char (MCP.rstrip s)) = true.
Proof.
  induction s as [|c rest IH]; simpl.
  - exists "". auto.
  - destruct IH as (post & Heq & Hsp & Hlast).
    destruct (MCP.rstrip rest) as [|k kept] eqn:Er.
    + destruct (MCP.is_space c) eqn:E.
      * exists (String c post). simpl. rewrite E, Hsp.
        rewrite append_empty in *.
        split; [f_equal; exact Heq|]. split; reflexivity.
      * exists post. simpl. rewrite E. rewrite append_empty in Heq.
        split; [rewrite append_String, append_empty; f_equal; exact Heq|].
        split; [exact Hsp | reflexivity].
    + exists post. split; [rewrite !append_String in *; f_equal; exact Heq|].
      split; [exact Hsp|]. exact Hlast.
Qed.

Lemma rstrip_first_char (s : string) :
  MCP.not_space (MCP.first_char s) = true ->
  MCP.not_space (MCP.first_char (MCP.rstrip s)) = true.
Proof.
  destruct s as [|c rest]; simpl; [auto|].
  intros Hc. destruct (MCP.rstrip rest).
  - apply negb_true_iff in Hc. rewrite Hc. simpl. now rewrite Hc.
  - exact Hc.
Qed.

(** [strip] removes a run of whitespace at each end and nothing else. *)
Lemma strip_spec (s : string) :
  exists pre post,
    s = pre ++ MCP.strip s ++ post
    /\ MCP.all_space pre = true /\ MCP.all_space post = true
    /\ MCP.not_space (MCP.first_char (MCP.strip s)) = true
    /\ MCP.not_space (MCP.last_char (MCP.strip s)) = true.
Proof.
  unfold MCP.strip.
  destruct (lstrip_spec s) as (pre & Hs & Hpre & Hfirst).
  destruct (rstrip_spec (MCP.lstrip s)) as (post & Hl & Hpost & Hlast).
  exists pre, post. repeat split; auto.
  - now rewrite <- Hl.
  - now apply rstrip_first_char.
Qed.

Lemma strip_clean (s : string) :
  MCP.contains MCP.comma s = false -> MCP.clean_entry (MCP.strip s) = true.
Proof.
  intros Hc. destruct (strip_spec s) as (pre & post & Hs & _ & _ & Hf & Hl).
  unfold MCP.clean_entry. rewrite Hf, Hl. simpl.
  rewrite Hs in Hc. rewrite !contains_app in Hc.
  apply orb_false_iff in Hc as [_ Hc]. apply orb_false_iff in Hc as [Hc _].
  now rewrite Hc.
Qed.

Lemma parse_header_comma (h : string) :
  MCP.contains MCP.comma h = true ->
  MCP.parse_header (Some h) = map MCP.strip (MCP.split MCP.comma h).
Proof.
  intros Hc. destruct h as [|c rest]; [discriminate|].
  unfold MCP.parse_header. now rewrite Hc.
Qed.

Lemma parse_header_lone (h : string) :
  h <> "" -> MCP.contains MCP.comma h = false ->
  MCP.parse_header (Some h) = [h].
Proof.
  intros Hne Hc. destruct h as [|c rest]; [contradiction|].
  unfold MCP.parse_header. now rewrite Hc.
Qed.

Lemma parse_header_spec (header : option string) (h : string) :
  header = Some h -> h <> "" ->
  if MCP.contains MCP.comma h
  then MCP.parse_header header = map MCP.strip (MCP.split MCP.comma h)
       /\ join "," (MCP.split MCP.comma h) = h
       /\ Forall (fun x => MCP.clean_entry x = true) (MCP.parse_header header)
  else MCP.parse_header header = [h].
Proof.
  intros -> Hne. destruct (MCP.contains MCP.comma h) eqn:Hc.
  - rewrite (parse_header_comma h Hc). split; [reflexivity|].
    split; [apply join_split|].
    apply List.Forall_forall. intros x Hx.
    apply List.in_map_iff in Hx as (f & <- & Hf).
    apply strip_clean.
    pose proof (split_fields_no_sep MCP.comma h) as Hall.
    rewrite List.Forall_forall in Hall. now apply Hall.
  - now apply parse_header_lone.
Qed.

(** C10. In the mapping [extract_mcp_headers] returns, [server] is the first
    element of [servers] and [tool] the first element of [tools] ([None]
    when the list is empty).  A header holding a comma is cut at its commas
    and every piece is stripped of surrounding whitespace; a header without
    a comma becomes a one-element list holding it unchanged. *)
Theorem C10_extract_mcp_headers_consistent (request : MCP.Request) :
  let r := MCP.extract_mcp_headers request in
  MCP.server r = head (MCP.servers r)
  /\ MCP.tool r = head (MCP.tools r)
  /\ (forall h,
        MCP.header_or (MCP.headers request !! "X-MCP-Servers")
                      (MCP.headers request !! "X-MCP-Server") = Some h ->
        h <> "" ->
        if MCP.contains MCP.comma h
        then MCP.servers r = map MCP.strip (MCP.split MCP.comma h)
             /\ join "," (MCP.split MCP.comma h) = h
             /\ Forall (fun x => MCP.clean_entry x = true) (MCP.servers r)
        else MCP.servers r = [h])
  /\ (forall h,
        MCP.header_or (MCP.headers request !! "X-MCP-Tools")
                      (MCP.headers request !! "X-MCP-Tool") = Some h ->
        h <> "" ->
        if MCP.contains MCP.comma h
        then MCP.tools r = map MCP.strip (MCP.split MCP.comma h)
             /\ join "," (MCP.split MCP.comma h) = h
             /\ Forall (fun x => MCP.clean_entry x = true) (MCP.tools r)
        else MCP.tools r = [h]).
Proof.
  intros r. subst r. unfold MCP.extract_mcp_headers. simpl.
  split; [|split; [|split]].
  - now destruct (MCP.parse_header _).
  - now destruct (MCP.parse_header
                    (MCP.header_or (MCP.headers request !! "X-MCP-Tools") _)).
  - intros h Hh Hne. now apply parse_header_spec.
  - intros h Hh Hne. now apply parse_header_spec.
Qed.

Lemma C10_extract_mcp_headers_consistent_witness :
  MCP.servers (MCP.extract_mcp_headers MCP.example_http_request)
  = ["https://mcp.stripe.com"; "https://mcp.notion.com"]
  /\ MCP.tools (MCP.extract_mcp_headers MCP.example_http_request)
     = ["stripe.refunds.create"].
Proof.
  destruct (C10_extract_mcp_headers_consistent MCP.example_http_request)
    as (_ & _ & Hs & Ht).
  split.
  - specialize (Hs "https://mcp.stripe.com , https://mcp.notion.com").
    simpl in Hs. apply Hs; [reflexivity | discriminate].
  - specialize (Ht "stripe.refunds.create").
    simpl in Ht. apply Ht; [reflexivity | discriminate].
Defined.

(** * Idempotency keys in [PreActionAuthorizer.verify] *)

Import Effects.

Ltac run_monad :=
  cbv [mbind mret M_bind M_ret bind ret raise return_ lift when emit read_ctx
       update_ctx try_except try_finally run_function call_verify_policy
       call_get_passport_view].

Lemma call_verify_spec {RS} (client : APortClient RS)
    (repr : list Reason -> string) (agent_id policy_id : string)
    (context : gmap string Value) (idempotency_key : Value)
    (s : Machine unit RS) :
  let req := {| req_agent_id := VStr agent_id;
                req_policy_id := VStr policy_id;
                req_context := context;
                req_idempotency_key := idempotency_key |} in
  let answer := verify_policy client (remote s) req in
  PreAction.call_verify client repr agent_id policy_id context
    idempotency_key s
  = (match fst answer with
     | Returned decision =>
         if allow decision then inr decision
         else inl (AuthorizationError decision
                     ("Authorization denied: "
                      ++ PreAction.reasons_or_default repr decision))
     | VerifyRaised e => inl e
     end,
     {| ctx := ctx s; remote := snd answer;
        trace := trace s ++ [EvVerifyPolicy req (fst answer)] |}).
Proof.
  intros req answer. subst answer.
  unfold PreAction.call_verify, PreAction.verify. run_monad. fold req.
  destruct (verify_policy client (remote s) req) as [[decision|e] r'];
    simpl; [|reflexivity].
  destruct (allow decision); reflexivity.
Qed.

(** C2 as stated fails: the second call with the same idempotency key asks
    the client again, and an authority that does not deduplicate answers
    it with a different decision. *)
Lemma C2_second_verify_asks_the_client_again :
  ~ (forall (RS : Type) (client : APortClient RS)
            (repr : list Reason -> string) (agent_id policy_id : string)
            (context : gmap string Value) (idempotency_key : Value) (r : RS),
       let after_first :=
         snd (PreAction.call_verify client repr agent_id policy_id context
                idempotency_key (Examples.fresh tt r)) in
       let both :=
         PreAction.verify_twice client repr agent_id policy_id context
           idempotency_key (Examples.fresh tt r) in
       count is_verify (trace (snd both))
       = count is_verify (trace after_first)
       /\ forall d1 d2,
            fst (fst both) = inr d1 -> snd (fst both) = inr d2 ->
            decision_id d1 = decision_id d2 /\ allow d1 = allow d2).
Proof.
  intros H.
  specialize (H nat Examples.stamping_client Examples.repr_reasons
                "ap_test" "finance.payment.refund.v1"
                Examples.refund_context (VStr "k1") 0%nat).
  destruct H as [Hcount _]. vm_compute in Hcount. discriminate.
Qed.

(** C2, amended. [verify] keeps no record of earlier calls: each call makes
    exactly one [client.verify_policy] call, passing the idempotency key on
    unchanged, and returns a decision exactly when the client returned that
    decision with [allow = True].  Two calls with the same key therefore
    return the same decision (same [decision_id], same [allow]) whenever the
    client answers both calls alike; replaying a decision for a repeated key
    is left to the client and the remote authority. *)
Theorem C2_verify_forwards_every_call {RS : Type} (client : APortClient RS)
    (repr : list Reason -> string) (agent_id policy_id : string)
    (context : gmap string Value) (idempotency_key : Value)
    (s : Machine unit RS) :
  let req := {| req_agent_id := VStr agent_id;
                req_policy_id := VStr policy_id;
                req_context := context;
                req_idempotency_key := idempotency_key |} in
  let answer1 := verify_policy client (remote s) req in
  let answer2 := verify_policy client (snd answer1) req in
  let both :=
    PreAction.verify_twice client repr agent_id policy_id context
      idempotency_key s in
  trace (snd both)
  = (trace s ++ [EvVerifyPolicy req (fst answer1);
                 EvVerifyPolicy req (fst answer2)])%list
  /\ (forall d, fst (fst both) = inr d <->
                fst answer1 = Returned d /\ allow d = true)
  /\ (forall d, snd (fst both) = inr d <->
                fst answer2 = Returned d /\ allow d = true)
  /\ (fst answer1 = fst answer2 -> fst (fst both) = snd (fst both)).
Proof.
  intros req answer1 answer2 both. subst both.
  unfold PreAction.verify_twice.
  rewrite (call_verify_spec client repr agent_id policy_id context
             idempotency_key s).
  fold req. fold answer1.
  rewrite (call_verify_spec client repr agent_id policy_id context
             idempotency_key).
  cbn [remote trace ctx fst snd]. fold req. fold answer2.
  split; [now rewrite <- app_assoc|].
  assert (Hchar : forall (out : VerifyOutcome) (d : Decision),
            match out with
            | Returned decision =>
                if allow decision then inr decision
                else inl (AuthorizationError decision
                            ("Authorization denied: "
                             ++ PreAction.reasons_or_default repr decision))
            | VerifyRaised e => inl e
            end = inr d <-> out = Returned d /\ allow d = true).
  { intros [decision|e] d.
    - destruct (allow decision) eqn:Ea.
      + split.
        * intros Heq. inversion Heq; subst. auto.
        * intros [Heq _]. inversion Heq; subst. reflexivity.
      + split; [discriminate|]. intros [Heq Hd]. inversion Heq; subst.
        congruence.
    - split; [discriminate|]. intros [Heq _]. discriminate. }
  split; [intros d; apply Hchar|]. split; [intros d; apply Hchar|].
  intros ->. reflexivity.
Qed.

Lemma C2_verify_forwards_every_call_witness :
  fst (fst (PreAction.verify_twice Examples.denying_client
              Examples.repr_reasons "ap_test" "finance.payment.refund.v1"
              Examples.refund_context (VStr "k1") (Examples.fresh tt 0%nat)))
  = snd (fst (PreAction.verify_twice Examples.denying_client
                Examples.repr_reasons "ap_test" "finance.payment.refund.v1"
                Examples.refund_context (VStr "k1") (Examples.fresh tt 0%nat))).
Proof.
  apply (C2_verify_forwards_every_call Examples.denying_client
           Examples.repr_reasons "ap_test" "finance.payment.refund.v1"
           Examples.refund_context (VStr "k1") (Examples.fresh tt 0%nat)).
  reflexivity.
Defined.

(** * Fail-closed behaviour of the guarded operations *)

Ltac solve_trace :=
  cbn;
  repeat match goal with
         | H : _ = _ |- _ => rewrite H
         end;
  cbn; repeat split; auto; try lia; try discriminate.

Lemma wrapper_fail_closed {RS : Type} (client : APortClient RS)
    (repr : list Reason -> string) (agent_id policy_id : string)
    (build_context : Args -> Exn + gmap string Value)
    (idempotency_key_fn : option (Args -> Exn + Value))
    (func : Args -> Exn + Value) (a : Args) (r : RS) :
  let t := trace (snd (PreAction.call_wrapper (C := unit) client repr
                         agent_id policy_id build_context idempotency_key_fn
                         func a (Examples.fresh tt r))) in
  (count is_verify t <= 1)%nat
  /\ (existsb is_func t = true -> existsb is_allow t = true).
Proof.
  unfold PreAction.call_wrapper, PreAction.wrapper, PreAction.verify,
    Examples.fresh.
  run_monad. cbn [ctx remote trace].
  destruct (build_context a) as [e|context]; [solve_trace|].
  destruct idempotency_key_fn as [key_fn|].
  - destruct (key_fn a) as [e|key]; [solve_trace|].
    destruct (verify_policy client _ _) as [[decision|e] r'].
    + destruct (allow decision) eqn:Ea.
      * destruct (func a) as [[]|v]; solve_trace.
      * solve_trace.
    + destruct e; solve_trace.
  - destruct (verify_policy client _ _) as [[decision|e] r'].
    + destruct (allow decision) eqn:Ea.
      * destruct (func a) as [[]|v]; solve_trace.
      * solve_trace.
    + destruct e; solve_trace.
Qed.

Lemma function_middleware_fail_closed {RS : Type} (env : Middleware.Env)
    (client : APortClient RS)
    (next : Middleware.FunctionInvocationContext
            -> Middleware.FunctionInvocationContext * option Exn)
    (c : Middleware.FunctionInvocationContext) (r : RS) :
  let t := trace (snd (Middleware.run_function_middleware env client next
                         (Examples.fresh c r))) in
  (count is_verify t <= 1)%nat
  /\ (existsb is_next t = true ->
      existsb is_allow t = true
      \/ (truthy (Middleware.resolve_policy_id c) = false
          /\ count is_verify t = 0%nat)).
Proof.
  unfold Middleware.run_function_middleware,
    Middleware.aport_function_middleware, Middleware.call_next,
    Middleware.fn_set_terminate, Middleware.fn_set_result,
    Middleware.fn_set_metadata, Examples.fresh.
  run_monad. cbn [ctx remote trace].
  destruct (truthy (py_or _ _)) eqn:Eagent; [|solve_trace].
  cbn [negb].
  destruct (truthy (Middleware.resolve_policy_id c)) eqn:Epolicy.
  - cbn [negb]. destruct (verify_policy client _ _) as [[decision|e] r'].
    + destruct (allow decision) eqn:Ea.
      * cbn. destruct (next _) as [c' [e|]]; solve_trace.
      * solve_trace.
    + destruct e; solve_trace.
  - cbn. destruct (next _) as [c' [e|]]; solve_trace.
Qed.

Lemma agent_middleware_fail_closed {RS : Type} (env : Middleware.Env)
    (client : APortClient RS)
    (next : Middleware.AgentRunContext
            -> Middleware.AgentRunContext * option Exn)
    (c : Middleware.AgentRunContext) (r : RS) :
  let t := trace (snd (Middleware.run_agent_middleware env client next
                         (Examples.fresh c r))) in
  (count is_verify t <= 1)%nat
  /\ (existsb is_next t = true ->
      truthy (py_or (get (Middleware.metadata c) "agent_id")
                    (get (Middleware.metadata c) "agent_passport_id")) = true
      /\ (existsb is_allow t = true
          \/ (truthy (get (Middleware.metadata c) "policy_id") = false
              /\ count is_verify t = 0%nat
              /\ exists passport_view,
                   In (EvGetPassportView
                         (py_or (get (Middleware.metadata c) "agent_id")
                                (get (Middleware.metadata c)
                                   "agent_passport_id"))
                         (PassportView passport_view)) t))).
Proof.
  unfold Middleware.run_agent_middleware, Middleware.aport_agent_middleware,
    Middleware.agent_denied, Middleware.agent_policy_error,
    Middleware.agent_passport_error, Middleware.agent_unexpected,
    Middleware.generate_audit_trail, Middleware.respond,
    Middleware.import_framework, Middleware.set_error,
    Middleware.streaming, Middleware.call_next, Middleware.set_terminate,
    Middleware.set_result, Middleware.set_metadata, Examples.fresh.
  run_monad. destruct c as [msgs md res term str].
  cbn [ctx remote trace Middleware.metadata Middleware.is_streaming].
  destruct (truthy (py_or _ _)) eqn:Eagent.
  2:{ cbn [negb]. destruct str;
      destruct (Middleware.framework_available env); solve_trace. }
  cbn [negb].
  destruct (truthy (get md "policy_id")) eqn:Epolicy.
  - destruct (verify_policy client _ _) as [[decision|e] r'].
    + destruct (allow decision) eqn:Ea.
      * cbn. destruct (next _) as [[msgs' md' res' term' str'] [e|]].
        -- cbn. destruct str';
             destruct (Middleware.framework_available env); solve_trace.
        -- cbn. destruct (truthy res' && _); solve_trace.
      * cbn. destruct str;
          destruct (Middleware.framework_available env); solve_trace.
    + destruct e; cbn; destruct str;
        destruct (Middleware.framework_available env); solve_trace.
  - destruct (get_passport_view client _ _) as [[passport_view|e] r'].
    + cbn. destruct (next _) as [[msgs' md' res' term' str'] [e|]].
      * cbn. destruct str';
          destruct (Middleware.framework_available env); cbn;
          (split; [lia|]); intros _; (split; [reflexivity|]); right;
          (split; [reflexivity|]); (split; [reflexivity|]);
          exists passport_view; simpl; tauto.
      * cbn. destruct (truthy res' && _); cbn.
        -- destruct (get_or _ _ _); cbn;
             (split; [lia|]); intros _; (split; [reflexivity|]); right;
             (split; [reflexivity|]); (split; [reflexivity|]);
             exists passport_view; simpl; tauto.
        -- (split; [lia|]); intros _; (split; [reflexivity|]); right;
             (split; [reflexivity|]); (split; [reflexivity|]);
             exists passport_view; simpl; tauto.
    + destruct e; cbn; destruct str;
        destruct (Middleware.framework_available env); solve_trace.
Qed.

Lemma process_spec {RS : Type} (env : Middleware.Env)
    (client : APortClient RS)
    (next : Middleware.AgentRunContext
            -> Middleware.AgentRunContext * option Exn)
    (s : Machine Middleware.AgentRunContext RS) :
  Middleware.run_process env client next s
  = (inr tt,
     {| ctx :=
          if Middleware.is_streaming (ctx s)
          then Middleware.with_terminate true (ctx s)
          else Middleware.with_result
                 (if Middleware.framework_available env
                  then VResponse "Authorization failed: Agent ID is required."
                  else VDict [ ("error", VStr "missing_agent_id");
                               ("message",
                                VStr "Agent ID is required for authorization") ])
                 (Middleware.with_terminate true (ctx s));
        remote := remote s;
        trace :=
          (trace s
           ++ (if truthy (py_or (get (Middleware.metadata (ctx s)) "agent_id")
                                (get (Middleware.metadata (ctx s))
                                   "agent_passport_id"))
               then [] else [EvLog Warning])
           ++ [EvClose])%list |}).
Proof.
  unfold Middleware.run_process, Middleware.process, Middleware.respond,
    Middleware.import_framework, Middleware.set_terminate,
    Middleware.set_result.
  run_monad. destruct s as [[msgs md res term str] r t].
  cbn [ctx remote trace Middleware.metadata Middleware.is_streaming].
  destruct (truthy (py_or _ _)); cbn [negb];
    destruct str; destruct (Middleware.framework_available env); cbn;
    rewrite <- ?app_assoc; try rewrite app_nil_r; reflexivity.
Qed.

(** C1 as stated fails: a tool call for which no policy id is found goes
    through with no verification at all. *)
Lemma C1_unmapped_function_runs_unverified :
  ~ (forall (RS : Type) (env : Middleware.Env) (client : APortClient RS)
            (next : Middleware.FunctionInvocationContext
                    -> Middleware.FunctionInvocationContext * option Exn)
            (c : Middleware.FunctionInvocationContext) (r : RS),
       let t := trace (snd (Middleware.run_function_middleware env client
                              next (Examples.fresh c r))) in
       existsb is_next t = true -> existsb is_allow t = true)
  /\ trace (snd (Middleware.run_function_middleware Examples.env
                   Examples.denying_client Examples.run_tool
                   (Examples.fresh Examples.weather_call 0%nat)))
     = [EvLog Warning; EvNext; EvClose].
Proof.
  split; [|reflexivity].
  intros H.
  specialize (H nat Examples.env Examples.denying_client Examples.run_tool
                Examples.weather_call 0%nat).
  vm_compute in H. specialize (H eq_refl). discriminate.
Qed.

(** C1, amended. Whenever a policy verification is made and does not answer
    with an explicit [allow = True] decision (it denies, or raises), the
    protected action is not invoked; each operation verifies at most once.
    - The [with_pre_action_authorization] wrapper always verifies: the
      wrapped function runs only after an [allow = True] decision.
    - The function-calling middleware invokes [next] only after an
      [allow = True] decision, or when no policy id is found for the
      function: then it makes no verification and continues.
    - The function-based agent-run middleware invokes [next] only when an
      agent id is supplied and either the policy verification answered
      [allow = True] or no policy id is supplied, in which case it makes no
      policy verification and continues once the passport view is fetched.
    - The class-based agent-run middleware never invokes [next]. *)
Theorem C1_fail_closed_when_verified {RS : Type} (env : Middleware.Env)
    (client : APortClient RS) (r : RS) :
  (forall (repr : list Reason -> string) (agent_id policy_id : string)
          (build_context : Args -> Exn + gmap string Value)
          (idempotency_key_fn : option (Args -> Exn + Value))
          (func : Args -> Exn + Value) (a : Args),
     let t := trace (snd (PreAction.call_wrapper (C := unit) client repr
                            agent_id policy_id build_context
                            idempotency_key_fn func a
                            (Examples.fresh tt r))) in
     (count is_verify t <= 1)%nat
     /\ (existsb is_func t = true -> existsb is_allow t = true))
  /\ (forall (next : Middleware.FunctionInvocationContext
                     -> Middleware.FunctionInvocationContext * option Exn)
             (c : Middleware.FunctionInvocationContext),
        let t := trace (snd (Middleware.run_function_middleware env client
                               next (Examples.fresh c r))) in
        (count is_verify t <= 1)%nat
        /\ (existsb is_next t = true ->
            existsb is_allow t = true
            \/ (truthy (Middleware.resolve_policy_id c) = false
                /\ count is_verify t = 0%nat)))
  /\ (forall (next : Middleware.AgentRunContext
                     -> Middleware.AgentRunContext * option Exn)
             (c : Middleware.AgentRunContext),
        let t := trace (snd (Middleware.run_agent_middleware env client next
                               (Examples.fresh c r))) in
        let agent_id := py_or (get (Middleware.metadata c) "agent_id")
                              (get (Middleware.metadata c)
                                 "agent_passport_id") in
        (count is_verify t <= 1)%nat
        /\ (existsb is_next t = true ->
            truthy agent_id = true
            /\ (existsb is_allow t = true
                \/ (truthy (get (Middleware.metadata c) "policy_id") = false
                    /\ count is_verify t = 0%nat
                    /\ exists passport_view,
                         In (EvGetPassportView agent_id
                               (PassportView passport_view)) t))))
  /\ (forall (next : Middleware.AgentRunContext
                     -> Middleware.AgentRunContext * option Exn)
             (c : Middleware.AgentRunContext),
        let t := trace (snd (Middleware.run_process env client next
                               (Examples.fresh c r))) in
        count is_verify t = 0%nat /\ existsb is_next t = false).
Proof.
  split; [|split; [|split]].
  - intros. apply wrapper_fail_closed.
  - intros. apply function_middleware_fail_closed.
  - intros. apply agent_middleware_fail_closed.
  - intros next c t. subst t. rewrite process_spec. cbn.
    destruct (truthy (py_or _ _)); cbn; split; reflexivity.
Qed.

Lemma C1_fail_closed_when_verified_witness :
  existsb is_func
    (trace (snd (PreAction.call_wrapper (C := unit) Examples.denying_client
                   Examples.repr_reasons "ap_test" "finance.payment.refund.v1"
                   (fun _ => inr Examples.refund_context) None
                   (fun _ => inr (VStr "refunded"))
                   {| args := []; kwargs := [] |} (Examples.fresh tt 0%nat))))
  = false.
Proof.
  destruct (C1_fail_closed_when_verified Examples.env Examples.denying_client
              0%nat) as (Hwrap & _).
  destruct (Hwrap Examples.repr_reasons "ap_test" "finance.payment.refund.v1"
              (fun _ => inr Examples.refund_context) None
              (fun _ => inr (VStr "refunded"))
              {| args := []; kwargs := [] |}) as [_ Himp].
  destruct (existsb is_func _) eqn:E; [|reflexivity].
  specialize (Himp eq_refl). vm_compute in Himp. discriminate.
Defined.

(** * The class-based agent-run middleware *)

(** C9. For every context, whatever its agent id and policy,
    [AportAgentMiddleware.process] sets [context.terminate] to [True] and
    returns, with no call of the client (policy or passport) and no call of
    [next]: the only effects are the warning when the agent id is missing
    and closing the client.  The function-based [aport_agent_middleware]
    behaves differently: on a run with an agent id and an allowed policy it
    invokes [next] and leaves [terminate] unset. *)
Theorem C9_process_terminates_every_run {RS : Type} (env : Middleware.Env)
    (client : APortClient RS)
    (next : Middleware.AgentRunContext
            -> Middleware.AgentRunContext * option Exn)
    (s : Machine Middleware.AgentRunContext RS) :
  let out := Middleware.run_process env client next s in
  let agent_id := py_or (get (Middleware.metadata (ctx s)) "agent_id")
                        (get (Middleware.metadata (ctx s))
                           "agent_passport_id") in
  fst out = inr tt
  /\ Middleware.terminate (ctx (snd out)) = true
  /\ Middleware.metadata (ctx (snd out)) = Middleware.metadata (ctx s)
  /\ remote (snd out) = remote s
  /\ trace (snd out)
     = (trace s ++ (if truthy agent_id then [] else [EvLog Warning])
        ++ [EvClose])%list
  /\ existsb is_next
       (trace (snd (Middleware.run_agent_middleware Examples.env
                      Examples.stamping_client Examples.run_agent
                      (Examples.fresh Examples.refund_run 0%nat)))) = true
  /\ Middleware.terminate
       (ctx (snd (Middleware.run_agent_middleware Examples.env
                    Examples.stamping_client Examples.run_agent
                    (Examples.fresh Examples.refund_run 0%nat)))) = false
  /\ existsb is_next
       (trace (snd (Middleware.run_process Examples.env
                      Examples.stamping_client Examples.run_agent
                      (Examples.fresh Examples.refund_run 0%nat)))) = false.
Proof.
  intros out agent_id. subst out agent_id. rewrite process_spec.
  cbn [fst snd ctx remote trace].
  split; [reflexivity|]. split.
  { destruct (Middleware.is_streaming (ctx s)); reflexivity. }
  split.
  { destruct (Middleware.is_streaming (ctx s)); reflexivity. }
  split; [reflexivity|]. split; [reflexivity|].
  split; [reflexivity|]. split; reflexivity.
Qed.

(** * Further properties of the assurance comparator *)

Lemma compare_true_iff (current required : string) :
  Assurance._compare_assurance_levels current required = true <->
  exists i j,
    index Assurance.levels current = Some i
    /\ index Assurance.levels required = Some j /\ (j <= i)%nat.
Proof.
  unfold Assurance._compare_assurance_levels.
  destruct (index Assurance.levels current) as [i|].
  - destruct (index Assurance.levels required) as [j|].
    + rewrite Nat.leb_le. split.
      * intros Hle. exists i, j. auto.
      * intros (i' & j' & Hi & Hj & Hle). congruence.
    + split; [discriminate|]. intros (i' & j' & _ & Hj & _). discriminate.
  - split; [discriminate|]. intros (i' & j' & Hi & _). discriminate.
Qed.

Lemma index_injective (l : list string) (a b : string) (i : nat) :
  index l a = Some i -> index l b = Some i -> a = b.
Proof.
  intros Ha Hb. apply index_Some_nth in Ha. apply index_Some_nth in Hb.
  congruence.
Qed.

(** X1. Satisfying requirements is transitive: when [a] satisfies a
    requirement of [b] and [b] satisfies a requirement of [c], then [a]
    satisfies a requirement of [c]. *)
Theorem X1_compare_assurance_levels_transitive (a b c : string) :
  Assurance._compare_assurance_levels a b = true ->
  Assurance._compare_assurance_levels b c = true ->
  Assurance._compare_assurance_levels a c = true.
Proof.
  rewrite !compare_true_iff.
  intros (i & j & Hi & Hj & Hji) (j' & k & Hj' & Hk & Hkj).
  exists i, k. repeat split; try assumption.
  assert (j = j') by congruence. lia.
Qed.

Lemma X1_compare_assurance_levels_transitive_witness :
  Assurance._compare_assurance_levels "L4FIN" "L1" = true.
Proof.
  apply (X1_compare_assurance_levels_transitive "L4FIN" "L3" "L1");
    reflexivity.
Defined.

(** X2. A tier satisfies its own requirement exactly when it is a known
    tier, and two tiers that satisfy each other's requirement are the same
    tier. *)
Theorem X2_compare_assurance_levels_partial_order (a b : string) :
  (Assurance._compare_assurance_levels a a = true <-> In a Assurance.levels)
  /\ (Assurance._compare_assurance_levels a b = true ->
      Assurance._compare_assurance_levels b a = true -> a = b).
Proof.
  split.
  - rewrite compare_true_iff. split.
    + intros (i & _ & Hi & _).
      apply index_Some_nth in Hi. eapply nth_error_In. exact Hi.
    + intros Hin. destruct (index Assurance.levels a) as [i|] eqn:E.
      * exists i, i. auto.
      * apply index_None_notin in E. contradiction.
  - rewrite !compare_true_iff.
    intros (i & j & Hi & Hj & Hji) (j' & i' & Hj' & Hi' & Hij).
    assert (j = j') by congruence. assert (i = i') by congruence. subst.
    assert (i' = j') by lia. subst. eapply index_injective; eassumption.
Qed.

Lemma X2_compare_assurance_levels_partial_order_witness :
  "L2" = "L2".
Proof.
  apply (X2_compare_assurance_levels_partial_order "L2" "L2"); reflexivity.
Defined.

(** X3. Route access is cumulative: an agent granted the [admin] route is
    granted [payouts], an agent granted [payouts] is granted [refunds], and
    an agent whose level is missing, empty or unknown is granted no route. *)
Theorem X3_route_access_cumulative (assurance_level : option string) :
  (Routes.has_access assurance_level "admin" = true ->
   Routes.has_access assurance_level "payouts" = true)
  /\ (Routes.has_access assurance_level "payouts" = true ->
      Routes.has_access assurance_level "refunds" = true)
  /\ (forall route,
        Routes.has_access assurance_level route = true ->
        exists level, assurance_level = Some level
                      /\ In level Assurance.levels).
Proof.
  assert (Hstep : forall level hi lo,
            Assurance._compare_assurance_levels hi lo = true ->
            Assurance._compare_assurance_levels level hi = true ->
            Assurance._compare_assurance_levels level lo = true).
  { intros level hi lo Hhl Hlh. rewrite compare_true_iff in *.
    destruct Hlh as (i & j & Hi & Hj & Hji).
    destruct Hhl as (j' & k & Hj' & Hk & Hkj).
    exists i, k. repeat split; try assumption.
    assert (j = j') by congruence. lia. }
  destruct assurance_level as [[|c rest]|].
  1, 3: (split; [discriminate|]; split; [discriminate|]; intros route H;
         discriminate).
  set (level := String c rest).
  pose proof (Hstep level "L4KYC" "L3" eq_refl) as H43.
  pose proof (Hstep level "L3" "L2" eq_refl) as H32.
  assert (Hknown : forall required,
            Assurance._compare_assurance_levels level required = true ->
            In level Assurance.levels).
  { intros required Hreq. rewrite compare_true_iff in Hreq.
    destruct Hreq as (i & _ & Hi & _).
    apply index_Some_nth in Hi. eapply nth_error_In. exact Hi. }
  unfold Routes.has_access, Routes.route_access. fold level.
  cbn [map Routes.required_levels existsb fst snd].
  destruct (Assurance._compare_assurance_levels level "L2") eqn:E2;
    destruct (Assurance._compare_assurance_levels level "L3") eqn:E3;
    destruct (Assurance._compare_assurance_levels level "L4KYC") eqn:E4;
    try (specialize (H43 eq_refl); discriminate);
    try (specialize (H32 eq_refl); discriminate);
    (split; [cbn; intros; congruence|]);
    (split; [cbn; intros; congruence|]);
    intros route H; exists level; (split; [reflexivity|]).
  all: try (apply (Hknown _ E2)).
  cbn in H. rewrite ?andb_false_r in H. discriminate.
Qed.

Lemma X3_route_access_cumulative_witness :
  Routes.has_access (Some "L4KYC") "payouts" = true.
Proof.
  apply (X3_route_access_cumulative (Some "L4KYC")). reflexivity.
Defined.

(** * Further properties of the retry loop *)

Lemma sleeps_app (a b : list Retry.Event) :
  RetryLog.sleeps (a ++ b) = (RetryLog.sleeps a ++ RetryLog.sleeps b)%list.
Proof. unfold RetryLog.sleeps. apply omap_app. Qed.

Lemma calls_app (a b : list Retry.Event) :
  Retry.calls (a ++ b) = (Retry.calls a ++ Retry.calls b)%list.
Proof. unfold Retry.calls. apply omap_app. Qed.





(** X5. With [max_retries] of 0 or less no request is made and [None] is
    returned; with [max_retries] of at least 1 the first thing done is
    attempt 1. *)
Theorem X5_retry_cap_edges
    (max_sleep : Z) (server : nat -> Retry.Outcome) (max_retries : Z) :
  ((max_retries <= 0)%Z ->
   Retry.verify_with_retry max_sleep server max_retries
   = (Retry.Returned None, []))
  /\ ((1 <= max_retries)%Z ->
      exists rest,
        snd (Retry.verify_with_retry max_sleep server max_retries)
        = Retry.Call 1 :: rest).
Proof.
  unfold Retry.verify_with_retry. split.
  - intros Hle. replace (Z.to_nat max_retries) with 0%nat by lia.
    reflexivity.
  - intros Hge. destruct (Z.to_nat max_retries) as [|n] eqn:E; [lia|].
    cbn [seq Retry.retry_loop].
    destruct (Retry.iteration max_sleep (S n) 1 (server 1%nat));
      try (eexists; reflexivity).
    destruct (Retry.retry_loop max_sleep server (S n) (seq 2 n)).
    eexists; reflexivity.
Qed.

Lemma X5_retry_cap_edges_witness :
  Retry.verify_with_retry Retry.cpython_max_sleep Retry.not_found_then_ok (-2)
  = (Retry.Returned None, [])
  /\ exists rest,
       snd (Retry.verify_with_retry Retry.cpython_max_sleep
              RetryLog.limited_then_ok 3)
       = Retry.Call 1 :: rest.
Proof.
  split.
  - apply (X5_retry_cap_edges Retry.cpython_max_sleep
             Retry.not_found_then_ok (-2)). lia.
  - apply (X5_retry_cap_edges Retry.cpython_max_sleep
             RetryLog.limited_then_ok 3). lia.
Defined.


(** * Further properties of the MCP header extraction and validation *)

Lemma parse_header_nil (header : option string) :
  MCP.parse_header header = [] <-> header = None \/ header = Some "".
Proof.
  destruct header as [[|c rest]|]; unfold MCP.parse_header.
  - split; auto.
  - split.
    + intros H. exfalso.
      destruct (MCP.contains MCP.comma (String c rest)); [|discriminate H].
      apply List.map_eq_nil in H.
      exact (split_nonempty MCP.comma (String c rest) H).
    + intros [H|H]; discriminate H.
  - split; auto.
Qed.

Lemma parse_header_comma_free (header : option string) :
  List.Forall (fun x => MCP.contains MCP.comma x = false)
              (MCP.parse_header header).
Proof.
  destruct header as [[|c rest]|]; unfold MCP.parse_header; try constructor.
  destruct (MCP.contains MCP.comma (String c rest)) eqn:Hc.
  - apply List.Forall_forall. intros x Hx.
    apply List.in_map_iff in Hx as (f & <- & Hf).
    pose proof (split_fields_no_sep MCP.comma (String c rest)) as Hall.
    rewrite List.Forall_forall in Hall.
    pose proof (strip_clean f (Hall f Hf)) as Hclean.
    unfold MCP.clean_entry in Hclean.
    apply andb_true_iff in Hclean as [_ Hclean].
    now apply negb_true_iff in Hclean.
  - constructor; [exact Hc | constructor].
Qed.

Lemma header_or_nil (a b : option string) :
  (MCP.header_or a b = None \/ MCP.header_or a b = Some "") <->
  (a = None \/ a = Some "") /\ (b = None \/ b = Some "").
Proof.
  destruct a as [[|c rest]|]; simpl; split; intros H;
    try tauto; try (destruct H as [H|H]; discriminate);
    try (destruct H as [[H|H] _]; discriminate); auto.
Qed.

(** X6. The plural header wins: two requests carrying the same non-empty
    [X-MCP-Servers] value yield the same [servers], whatever their
    [X-MCP-Server] headers say.  [servers] is empty exactly when neither
    header carries a non-empty value, and no entry of [servers] or [tools]
    contains a comma. *)
Theorem X6_extract_mcp_headers_precedence (request other : MCP.Request) :
  (forall h,
     h <> "" ->
     MCP.headers request !! "X-MCP-Servers" = Some h ->
     MCP.headers other !! "X-MCP-Servers" = Some h ->
     MCP.servers (MCP.extract_mcp_headers request)
     = MCP.servers (MCP.extract_mcp_headers other))
  /\ (MCP.servers (MCP.extract_mcp_headers request) = [] <->
      (MCP.headers request !! "X-MCP-Servers" = None
       \/ MCP.headers request !! "X-MCP-Servers" = Some "")
      /\ (MCP.headers request !! "X-MCP-Server" = None
          \/ MCP.headers request !! "X-MCP-Server" = Some ""))
  /\ (MCP.tools (MCP.extract_mcp_headers request) = [] <->
      (MCP.headers request !! "X-MCP-Tools" = None
       \/ MCP.headers request !! "X-MCP-Tools" = Some "")
      /\ (MCP.headers request !! "X-MCP-Tool" = None
          \/ MCP.headers request !! "X-MCP-Tool" = Some ""))
  /\ List.Forall (fun x => MCP.contains MCP.comma x = false)
       (MCP.servers (MCP.extract_mcp_headers request))
  /\ List.Forall (fun x => MCP.contains MCP.comma x = false)
       (MCP.tools (MCP.extract_mcp_headers request)).
Proof.
  unfold MCP.extract_mcp_headers. cbn [MCP.servers MCP.tools].
  split; [|split; [|split; [|split]]].
  - intros h Hne H1 H2. rewrite H1, H2.
    destruct h; [contradiction | reflexivity].
  - rewrite parse_header_nil. apply header_or_nil.
  - rewrite parse_header_nil. apply header_or_nil.
  - apply parse_header_comma_free.
  - apply parse_header_comma_free.
Qed.

Lemma X6_extract_mcp_headers_precedence_witness :
  MCP.servers (MCP.extract_mcp_headers MCP.example_http_request)
  = MCP.servers (MCP.extract_mcp_headers RequestExamples.both_headers).
Proof.
  destruct (X6_extract_mcp_headers_precedence
              MCP.example_http_request RequestExamples.both_headers)
    as (H & _).
  apply (H "https://mcp.stripe.com , https://mcp.notion.com");
    [discriminate | reflexivity | reflexivity].
Defined.

Lemma validate_passes_iff (passport : MCP.PassportView) (h : MCP.McpHeaders) :
  MCP.validate_mcp_against_passport (MCP.Fetched passport) h = inr true <->
  (forall s, In s (MCP.servers h) -> In s (MCP.allowed_servers passport))
  /\ (forall t, In t (MCP.tools h) -> In t (MCP.allowed_tools passport)).
Proof.
  simpl. rewrite validate_fetched_cascade.
  rewrite <- !unauthorized_nil.
  destruct (MCP.unauthorized (MCP.servers h) _);
    destruct (MCP.unauthorized (MCP.tools h) _);
    split; try discriminate; try tauto; intros [H1 H2]; discriminate.
Qed.

(** X7. Validation is monotone: a request that passes still passes after
    dropping requested servers or tools, and after the passport's allowlists
    grow. *)
Theorem X7_mcp_validation_monotone
    (passport passport' : MCP.PassportView) (h h' : MCP.McpHeaders) :
  incl (MCP.servers h') (MCP.servers h) ->
  incl (MCP.tools h') (MCP.tools h) ->
  incl (MCP.allowed_servers passport) (MCP.allowed_servers passport') ->
  incl (MCP.allowed_tools passport) (MCP.allowed_tools passport') ->
  MCP.validate_mcp_against_passport (MCP.Fetched passport) h = inr true ->
  MCP.validate_mcp_against_passport (MCP.Fetched passport') h' = inr true.
Proof.
  intros Hs Ht Has Hat. rewrite !validate_passes_iff.
  intros [H1 H2]. split.
  - intros s Hin. apply Has, H1, Hs, Hin.
  - intros t Hin. apply Hat, H2, Ht, Hin.
Qed.

Lemma X7_mcp_validation_monotone_witness :
  MCP.validate_mcp_against_passport
    (MCP.Fetched RequestExamples.wide_passport) RequestExamples.one_server
  = inr true.
Proof.
  apply (X7_mcp_validation_monotone
           RequestExamples.wide_passport RequestExamples.wide_passport
           RequestExamples.two_servers RequestExamples.one_server).
  - intros x [<-|[]]. now left.
  - intros x Hx. exact Hx.
  - intros x Hx. exact Hx.
  - intros x Hx. exact Hx.
  - reflexivity.
Defined.

(** * Further properties of the authorization wrapper *)

Ltac break_in :=
  repeat match goal with
         | H : In _ _ |- _ => cbn in H
         | H : _ \/ _ |- _ => destruct H
         | H : False |- _ => contradiction
         | H : @eq Event _ _ |- _ => inversion H; subst; clear H
         | H : @eq VerifyOutcome _ _ |- _ => inversion H; subst; clear H
         | H : inl _ = inl _ |- _ => inversion H; subst; clear H
         | H : inr _ = inr _ |- _ => inversion H; subst; clear H
         | H : inl _ = inr _ |- _ => discriminate H
         | H : inr _ = inl _ |- _ => discriminate H
         | H : true = false |- _ => discriminate H
         | H : false = true |- _ => discriminate H
         end.

(** X8. What a call of the wrapped tool gives back.  When [build_context]
    raises, its exception comes out and the client is not called.  The one
    verification request carries the configured agent id and policy id and
    the context [build_context] built.  On a deny the caller gets an
    [AuthorizationError] carrying the very decision the client returned,
    with the message built from its reasons.  An exception of the client
    other than an [AuthorizationError] comes out unchanged.  When the tool
    runs and returns, its value is the result. *)
Theorem X8_wrapper_outcomes {RS : Type} (client : APortClient RS)
    (repr : list Reason -> string) (agent_id policy_id : string)
    (build_context : Args -> Exn + gmap string Value)
    (idempotency_key_fn : option (Args -> Exn + Value))
    (func : Args -> Exn + Value) (a : Args) (r : RS) :
  let run := PreAction.call_wrapper (C := unit) client repr agent_id
               policy_id build_context idempotency_key_fn func a
               (Examples.fresh tt r) in
  let t := trace (snd run) in
  (forall e, build_context a = inl e -> fst run = inl e /\ t = [])
  /\ (forall req out,
        In (EvVerifyPolicy req out) t ->
        req_agent_id req = VStr agent_id
        /\ req_policy_id req = VStr policy_id
        /\ build_context a = inr (req_context req))
  /\ (forall req d,
        In (EvVerifyPolicy req (Returned d)) t -> allow d = false ->
        fst run = inl (AuthorizationError d
                         ("Action denied: " ++ PreAction.denial_messages d)))
  /\ (forall req e,
        In (EvVerifyPolicy req (VerifyRaised e)) t ->
        match e with
        | AuthorizationError d _ =>
            fst run = inl (AuthorizationError d
                             ("Action denied: "
                              ++ PreAction.denial_messages d))
        | _ => fst run = inl e
        end)
  /\ (forall v,
        func a = inr v -> existsb is_func t = true -> fst run = inr v).
Proof.
  unfold PreAction.call_wrapper, PreAction.wrapper, PreAction.verify,
    Examples.fresh.
  run_monad. cbn [ctx remote trace].
  destruct (build_context a) as [e|context].
  { cbn. repeat split; intros; break_in; auto; discriminate. }
  destruct idempotency_key_fn as [key_fn|].
  - destruct (key_fn a) as [e|key].
    { cbn. repeat split; intros; break_in; auto; discriminate. }
    destruct (verify_policy client _ _) as [[decision|e] r'].
    + destruct (allow decision) eqn:Ea.
      * destruct (func a) as [[]|v]; cbn;
          repeat split; intros; break_in; auto; try congruence.
      * cbn. repeat split; intros; break_in; auto; try congruence.
    + destruct e; cbn; repeat split; intros; break_in; auto;
        try congruence.
  - destruct (verify_policy client _ _) as [[decision|e] r'].
    + destruct (allow decision) eqn:Ea.
      * destruct (func a) as [[]|v]; cbn;
          repeat split; intros; break_in; auto; try congruence.
      * cbn. repeat split; intros; break_in; auto; try congruence.
    + destruct e; cbn; repeat split; intros; break_in; auto;
        try congruence.
Qed.

Lemma X8_wrapper_outcomes_witness :
  fst (PreAction.call_wrapper (C := unit) Examples.denying_client
         Examples.repr_reasons "ap_test" "finance.payment.refund.v1"
         (fun _ => inr Examples.refund_context) None
         (fun _ => inr (VStr "refunded"))
         {| args := []; kwargs := [] |} (Examples.fresh tt 0%nat))
  = inl (AuthorizationError
           {| decision_id := "dec_denied"; allow := false;
              reasons := Some [ {| code := Some "limit_exceeded";
                                   reason_message :=
                                     Some "Amount exceeds limit" |} ];
              assurance_level := None |}
           "Action denied: Amount exceeds limit").
Proof.
  destruct (X8_wrapper_outcomes Examples.denying_client
              Examples.repr_reasons "ap_test" "finance.payment.refund.v1"
              (fun _ => inr Examples.refund_context) None
              (fun _ => inr (VStr "refunded"))
              {| args := []; kwargs := [] |} 0%nat)
    as (_ & _ & Hdeny & _).
  eapply Hdeny; [|reflexivity]. vm_compute. left. reflexivity.
Defined.

(** * Further properties of the function-calling middleware *)

Ltac unfold_function_middleware :=
  unfold Middleware.run_function_middleware,
    Middleware.aport_function_middleware, Middleware.call_next,
    Middleware.fn_set_terminate, Middleware.fn_set_result,
    Middleware.fn_set_metadata, Examples.fresh;
  run_monad; cbn [ctx remote trace].

(** X9. [aport_function_middleware] never lets an exception out, whether
    it comes from the client or from [next]; it invokes [next] at most once,
    and the last thing it does is close the client. *)
Theorem X9_function_middleware_contains_exceptions {RS : Type}
    (env : Middleware.Env) (client : APortClient RS)
    (next : Middleware.FunctionInvocationContext
            -> Middleware.FunctionInvocationContext * option Exn)
    (c : Middleware.FunctionInvocationContext) (r : RS) :
  let out := Middleware.run_function_middleware env client next
               (Examples.fresh c r) in
  fst out = inr tt
  /\ (count is_next (trace (snd out)) <= 1)%nat
  /\ last (trace (snd out)) = Some EvClose.
Proof.
  unfold_function_middleware.
  destruct (truthy (py_or _ _)) eqn:Eagent; [|cbn; auto].
  cbn [negb].
  destruct (truthy (Middleware.resolve_policy_id c)) eqn:Epolicy.
  - cbn [negb]. destruct (verify_policy client _ _) as [[decision|e] r'].
    + destruct (allow decision) eqn:Ea.
      * cbn. destruct (next _) as [c' [e|]]; cbn; auto.
      * cbn. auto.
    + destruct e; cbn; auto.
  - cbn. destruct (next _) as [c' [e|]]; cbn; auto.
Qed.

(** X10. When [aport_function_middleware] does not invoke [next], it has
    set [context.terminate] and left an error dictionary as the result,
    whose code is one of [missing_agent_id], [authorization_denied],
    [authorization_failed] and [internal_error]. *)
Theorem X10_function_middleware_marks_refusals {RS : Type}
    (env : Middleware.Env) (client : APortClient RS)
    (next : Middleware.FunctionInvocationContext
            -> Middleware.FunctionInvocationContext * option Exn)
    (c : Middleware.FunctionInvocationContext) (r : RS) :
  let out := Middleware.run_function_middleware env client next
               (Examples.fresh c r) in
  existsb is_next (trace (snd out)) = false ->
  Middleware.fn_terminate (ctx (snd out)) = true
  /\ exists error,
       Outcomes.error_code (Middleware.fn_result (ctx (snd out))) = Some error
       /\ In error [ "missing_agent_id"; "authorization_denied";
                     "authorization_failed"; "internal_error" ].
Proof.
  unfold_function_middleware.
  destruct (truthy (py_or _ _)) eqn:Eagent.
  2:{ cbn. intros _. split; [reflexivity|]. eexists. split; [reflexivity|].
      cbn. tauto. }
  cbn [negb].
  destruct (truthy (Middleware.resolve_policy_id c)) eqn:Epolicy.
  - cbn [negb]. destruct (verify_policy client _ _) as [[decision|e] r'].
    + destruct (allow decision) eqn:Ea.
      * cbn. destruct (next _) as [c' [e|]]; cbn; discriminate.
      * cbn. intros _. split; [reflexivity|]. eexists.
        split; [reflexivity|]. cbn. tauto.
    + destruct e; cbn; intros _; (split; [reflexivity|]); eexists;
        (split; [reflexivity|]); cbn; tauto.
  - cbn. destruct (next _) as [c' [e|]]; cbn; discriminate.
Qed.

Lemma X10_function_middleware_marks_refusals_witness :
  Middleware.fn_terminate
    (ctx (snd (Middleware.run_function_middleware Examples.env
                 Examples.denying_client Examples.run_tool
                 (Examples.fresh Outcomes.refund_call 0%nat)))) = true.
Proof.
  apply (X10_function_middleware_marks_refusals Examples.env
           Examples.denying_client Examples.run_tool Outcomes.refund_call
           0%nat).
  reflexivity.
Defined.

(** X11. When the tool raises, [aport_function_middleware] swallows the
    exception: the call ends normally with [context.terminate] set and an
    [internal_error] result. *)
Theorem X11_function_middleware_swallows_tool_failure {RS : Type}
    (env : Middleware.Env) (client : APortClient RS)
    (next : Middleware.FunctionInvocationContext
            -> Middleware.FunctionInvocationContext * option Exn)
    (c : Middleware.FunctionInvocationContext) (r : RS) :
  let out := Middleware.run_function_middleware env client next
               (Examples.fresh c r) in
  (forall c0, snd (next c0) <> None) ->
  existsb is_next (trace (snd out)) = true ->
  fst out = inr tt
  /\ Middleware.fn_terminate (ctx (snd out)) = true
  /\ Outcomes.error_code (Middleware.fn_result (ctx (snd out)))
     = Some "internal_error".
Proof.
  unfold_function_middleware. intros Hraises.
  destruct (truthy (py_or _ _)) eqn:Eagent; [|cbn; discriminate].
  cbn [negb].
  destruct (truthy (Middleware.resolve_policy_id c)) eqn:Epolicy.
  - cbn [negb]. destruct (verify_policy client _ _) as [[decision|e] r'].
    + destruct (allow decision) eqn:Ea.
      * cbn.
        match goal with |- context [next ?c0] =>
          pose proof (Hraises c0) as Hr; destruct (next c0) as [c' [e|]]
        end; [cbn; auto | cbn in Hr; contradiction].
      * cbn. discriminate.
    + destruct e; cbn; discriminate.
  - cbn.
    match goal with |- context [next ?c0] =>
      pose proof (Hraises c0) as Hr; destruct (next c0) as [c' [e|]]
    end; [cbn; auto | cbn in Hr; contradiction].
Qed.

Lemma X11_function_middleware_swallows_tool_failure_witness :
  Outcomes.error_code
    (Middleware.fn_result
       (ctx (snd (Middleware.run_function_middleware Examples.env
                    Examples.stamping_client Outcomes.failing_tool
                    (Examples.fresh Outcomes.refund_call 0%nat)))))
  = Some "internal_error".
Proof.
  apply (X11_function_middleware_swallows_tool_failure Examples.env
           Examples.stamping_client Outcomes.failing_tool
           Outcomes.refund_call 0%nat).
  - intros c0. discriminate.
  - reflexivity.
Defined.

(** X12. In the context sent for a tool call, the function's arguments are
    passed through under their own names and take precedence over the
    [function_name] and [action] entries, so an argument named
    [function_name] replaces the real function name; only [timestamp] always
    comes from the metadata or the clock.  Without such an argument
    [function_name] is the function's name. *)
Theorem X12_function_context_arguments_take_precedence
    (env : Middleware.Env) (c : Middleware.FunctionInvocationContext) :
  let context := Middleware.extract_function_context_data env c in
  context !! "timestamp"
  = Some (get_or (Middleware.fn_metadata c) "timestamp"
            (VStr (Middleware.utcnow env)))
  /\ (forall key v,
        key <> "timestamp" ->
        Middleware.arguments c !! key = Some v -> context !! key = Some v)
  /\ (Middleware.arguments c !! "function_name" = None ->
      context !! "function_name"
      = Some (VStr (default "unknown" (Middleware.function_name c))))
  /\ (forall key,
        key <> "timestamp" -> key <> "function_name" -> key <> "action" ->
        context !! key = Middleware.arguments c !! key).
Proof.
  unfold Middleware.extract_function_context_data. cbn zeta.
  split; [apply lookup_insert_eq|]. split; [|split].
  - intros key v Hne Harg. rewrite lookup_insert_ne by congruence.
    apply lookup_union_Some_l. exact Harg.
  - intros Hnone. rewrite lookup_insert_ne by discriminate.
    rewrite lookup_union_r by exact Hnone.
    rewrite lookup_insert_ne by discriminate.
    apply lookup_singleton_eq.
  - intros key H1 H2 H3. rewrite lookup_insert_ne by congruence.
    destruct (Middleware.arguments c !! key) as [v|] eqn:E.
    + apply lookup_union_Some_l. exact E.
    + rewrite lookup_union_r by exact E.
      rewrite lookup_insert_ne by congruence.
      rewrite lookup_singleton_ne by congruence. reflexivity.
Qed.

Lemma X12_function_context_arguments_take_precedence_witness :
  Middleware.extract_function_context_data Examples.env Outcomes.refund_call
  !! "function_name" = Some (VStr "lookup_weather").
Proof.
  destruct (X12_function_context_arguments_take_precedence Examples.env
              Outcomes.refund_call) as (_ & H & _).
  apply H; [discriminate | reflexivity].
Defined.

(** * Further properties of the function-based agent-run middleware *)

Ltac unfold_agent_middleware :=
  unfold Middleware.run_agent_middleware, Middleware.aport_agent_middleware,
    Middleware.agent_denied, Middleware.agent_policy_error,
    Middleware.agent_passport_error, Middleware.agent_unexpected,
    Middleware.generate_audit_trail, Middleware.respond,
    Middleware.import_framework, Middleware.set_error,
    Middleware.streaming, Middleware.call_next, Middleware.set_terminate,
    Middleware.set_result, Middleware.set_metadata, Examples.fresh;
  run_monad.

(** X13. [aport_agent_middleware] never lets an exception out, invokes
    [next] at most once, makes at most one client call, and the last thing
    it does is close the client.  Without an agent id it makes no client
    call at all. *)
Theorem X13_agent_middleware_contains_exceptions {RS : Type}
    (env : Middleware.Env) (client : APortClient RS)
    (next : Middleware.AgentRunContext
            -> Middleware.AgentRunContext * option Exn)
    (c : Middleware.AgentRunContext) (r : RS) :
  let out := Middleware.run_agent_middleware env client next
               (Examples.fresh c r) in
  let t := trace (snd out) in
  fst out = inr tt
  /\ (count is_next t <= 1)%nat
  /\ (count is_remote t <= 1)%nat
  /\ last t = Some EvClose
  /\ (truthy (py_or (get (Middleware.metadata c) "agent_id")
                    (get (Middleware.metadata c) "agent_passport_id"))
      = false ->
      count is_remote t = 0%nat /\ remote (snd out) = r).
Proof.
  unfold_agent_middleware. destruct c as [msgs md res term str].
  cbn [ctx remote trace Middleware.metadata Middleware.is_streaming].
  destruct (truthy (py_or _ _)) eqn:Eagent.
  2:{ cbn [negb]. destruct str;
      destruct (Middleware.framework_available env); cbn;
      repeat split; auto. }
  cbn [negb].
  destruct (truthy (get md "policy_id")) eqn:Epolicy.
  - destruct (verify_policy client _ _) as [[decision|e] r'].
    + destruct (allow decision) eqn:Ea.
      * cbn. destruct (next _) as [[msgs' md' res' term' str'] [e|]].
        -- cbn. destruct str';
             destruct (Middleware.framework_available env); cbn;
             repeat split; auto; discriminate.
        -- cbn. destruct (truthy res' && _); cbn;
             repeat split; auto; discriminate.
      * cbn. destruct str;
          destruct (Middleware.framework_available env); cbn;
          repeat split; auto; discriminate.
    + destruct e; cbn; destruct str;
        destruct (Middleware.framework_available env); cbn;
        repeat split; auto; discriminate.
  - destruct (get_passport_view client _ _) as [[passport_view|e] r'].
    + cbn. destruct (next _) as [[msgs' md' res' term' str'] [e|]].
      * cbn. destruct str';
          destruct (Middleware.framework_available env); cbn;
          repeat split; auto; discriminate.
      * cbn. destruct (truthy res' && _); cbn.
        -- destruct (get_or _ _ _); cbn; repeat split; auto; discriminate.
        -- repeat split; auto; discriminate.
    + destruct e; cbn; destruct str;
        destruct (Middleware.framework_available env); cbn;
        repeat split; auto; discriminate.
Qed.

Lemma X13_agent_middleware_contains_exceptions_witness :
  count is_remote
    (trace (snd (Middleware.run_agent_middleware Examples.env
                   Examples.stamping_client Examples.run_agent
                   (Examples.fresh Outcomes.anonymous_run 0%nat)))) = 0%nat.
Proof.
  apply (X13_agent_middleware_contains_exceptions Examples.env
           Examples.stamping_client Examples.run_agent
           Outcomes.anonymous_run 0%nat).
  reflexivity.
Defined.

(** X14. When [aport_agent_middleware] does not invoke [next], it has set
    [context.terminate].  After a policy verification that answers with a
    deny, [next] is not invoked and the decision (its id, with
    [allow = False]) is recorded under [aport_decision] in the metadata. *)
Theorem X14_agent_middleware_marks_refusals {RS : Type}
    (env : Middleware.Env) (client : APortClient RS)
    (next : Middleware.AgentRunContext
            -> Middleware.AgentRunContext * option Exn)
    (c : Middleware.AgentRunContext) (r : RS) :
  let out := Middleware.run_agent_middleware env client next
               (Examples.fresh c r) in
  let t := trace (snd out) in
  (existsb is_next t = false -> Middleware.terminate (ctx (snd out)) = true)
  /\ (forall req d,
        In (EvVerifyPolicy req (Returned d)) t -> allow d = false ->
        existsb is_next t = false
        /\ exists items,
             Middleware.metadata (ctx (snd out)) !! "aport_decision"
             = Some (VDict items)
             /\ Middleware.assoc "decision_id" items = VStr (decision_id d)
             /\ Middleware.assoc "allow" items = VBool false).
Proof.
  unfold_agent_middleware. destruct c as [msgs md res term str].
  cbn [ctx remote trace Middleware.metadata Middleware.is_streaming].
  destruct (truthy (py_or _ _)) eqn:Eagent.
  2:{ cbn [negb]. destruct str;
      destruct (Middleware.framework_available env); cbn;
      (split; [reflexivity|]); intros; break_in. }
  cbn [negb].
  destruct (truthy (get md "policy_id")) eqn:Epolicy.
  - destruct (verify_policy client _ _) as [[decision|e] r'].
    + destruct (allow decision) eqn:Ea.
      * cbn. destruct (next _) as [[msgs' md' res' term' str'] [e|]].
        -- cbn. destruct str';
             destruct (Middleware.framework_available env); cbn;
             (split; [discriminate|]); intros; break_in; congruence.
        -- cbn. destruct (truthy res' && _); cbn;
             (split; [discriminate|]); intros; break_in; congruence.
      * cbn. destruct str;
          destruct (Middleware.framework_available env); cbn;
          (split; [reflexivity|]); intros; break_in;
          (split; [reflexivity|]); eexists;
          (split; [first [apply lookup_insert_eq
                         | rewrite !lookup_insert_ne by discriminate;
                           apply lookup_insert_eq]|]);
          cbn; rewrite ?Ea; auto.
    + destruct e; cbn; destruct str;
        destruct (Middleware.framework_available env); cbn;
        (split; [reflexivity|]); intros; break_in.
  - destruct (get_passport_view client _ _) as [[passport_view|e] r'].
    + cbn. destruct (next _) as [[msgs' md' res' term' str'] [e|]].
      * cbn. destruct str';
          destruct (Middleware.framework_available env); cbn;
          (split; [discriminate|]); intros; break_in.
      * cbn. destruct (truthy res' && _); cbn.
        -- destruct (get_or _ _ _); cbn;
             (split; [discriminate|]); intros; break_in.
        -- (split; [discriminate|]); intros; break_in.
    + destruct e; cbn; destruct str;
        destruct (Middleware.framework_available env); cbn;
        (split; [reflexivity|]); intros; break_in.
Qed.

Lemma X14_agent_middleware_marks_refusals_witness :
  Middleware.terminate
    (ctx (snd (Middleware.run_agent_middleware Examples.env
                 Examples.denying_client Examples.run_agent
                 (Examples.fresh Examples.refund_run 0%nat)))) = true.
Proof.
  apply (X14_agent_middleware_marks_refusals Examples.env
           Examples.denying_client Examples.run_agent Examples.refund_run
           0%nat).
  reflexivity.
Defined.

(** * The class-based function-calling middleware *)

Ltac unfold_class_middleware :=
  unfold ClassMiddleware.run_process, ClassMiddleware.process,
    Middleware.call_next, Middleware.fn_set_terminate,
    Middleware.fn_set_result, Middleware.fn_set_metadata, Examples.fresh;
  run_monad; cbn [ctx remote trace].

(** X15. [AportFunctionMiddleware.process] never lets an exception out and
    verifies at most once.  It invokes [next] only after a verification that
    answered [allow = True], or when no policy id is found for the function
    (metadata, custom mapping and default mapping all empty), in which case
    it makes no verification.  When it does not invoke [next] it has set
    [context.terminate]. *)
Theorem X15_class_function_middleware_fail_closed {RS : Type}
    (env : Middleware.Env) (client : APortClient RS)
    (policy_mapping : gmap string string)
    (next : Middleware.FunctionInvocationContext
            -> Middleware.FunctionInvocationContext * option Exn)
    (c : Middleware.FunctionInvocationContext) (r : RS) :
  let out := ClassMiddleware.run_process env client policy_mapping next
               (Examples.fresh c r) in
  let t := trace (snd out) in
  fst out = inr tt
  /\ (count is_verify t <= 1)%nat
  /\ (existsb is_next t = true ->
      existsb is_allow t = true
      \/ (truthy (ClassMiddleware.resolve_policy_id policy_mapping c) = false
          /\ count is_verify t = 0%nat))
  /\ (existsb is_next t = false ->
      Middleware.fn_terminate (ctx (snd out)) = true).
Proof.
  unfold_class_middleware.
  destruct (truthy (py_or (get _ "agent_id") _)) eqn:Eagent;
    [|solve_trace].
  cbn [negb].
  destruct (truthy (ClassMiddleware.resolve_policy_id policy_mapping c))
    eqn:Epolicy.
  - cbn [negb]. destruct (verify_policy client _ _) as [[decision|e] r'].
    + destruct (allow decision) eqn:Ea.
      * cbn. destruct (next _) as [c' [[]|]]; solve_trace.
      * solve_trace.
    + destruct e; solve_trace.
  - cbn. destruct (next _) as [c' [[]|]]; solve_trace.
Qed.

Lemma X15_class_function_middleware_fail_closed_witness :
  Middleware.fn_terminate
    (ctx (snd (ClassMiddleware.run_process Examples.env
                 Examples.denying_client
                 {[ "lookup_weather" := "weather.read.v1" ]}
                 Examples.run_tool
                 (Examples.fresh Examples.weather_call 0%nat)))) = true.
Proof.
  apply (X15_class_function_middleware_fail_closed Examples.env
           Examples.denying_client
           {[ "lookup_weather" := "weather.read.v1" ]}
           Examples.run_tool Examples.weather_call 0%nat).
  reflexivity.
Defined.

(** X16. With no custom policy mapping, the class-based and the
    function-based function-calling middleware do the same things apart
    from logging: the same verification request with the same answer, [next]
    in the same cases, the client closed last, and the same state of the
    remote authority afterwards. *)
Theorem X16_class_and_function_middleware_agree {RS : Type}
    (env : Middleware.Env) (client : APortClient RS)
    (next : Middleware.FunctionInvocationContext
            -> Middleware.FunctionInvocationContext * option Exn)
    (c : Middleware.FunctionInvocationContext) (r : RS) :
  let by_class := ClassMiddleware.run_process env client ∅ next
                    (Examples.fresh c r) in
  let by_function := Middleware.run_function_middleware env client next
                       (Examples.fresh c r) in
  List.filter ClassMiddleware.not_log (trace (snd by_class))
  = List.filter ClassMiddleware.not_log (trace (snd by_function))
  /\ remote (snd by_class) = remote (snd by_function)
  /\ fst by_class = fst by_function.
Proof.
  assert (Hresolve : ClassMiddleware.resolve_policy_id ∅ c
                     = Middleware.resolve_policy_id c).
  { unfold ClassMiddleware.resolve_policy_id, Middleware.resolve_policy_id.
    cbn zeta. rewrite lookup_empty. cbn [Middleware.opt_str].
    generalize (py_or (get (Middleware.fn_metadata c) "policy_id")
                  (get (Middleware.fn_metadata c)
                     ("policy_"
                      ++ default "unknown" (Middleware.function_name c)))).
    intros v. unfold py_or.
    destruct (truthy v) eqn:E; [rewrite E; reflexivity | reflexivity]. }
  unfold_class_middleware. unfold_function_middleware.
  rewrite Hresolve.
  destruct (truthy (py_or (get _ "agent_id") _)) eqn:Eagent;
    [|cbn; auto].
  cbn [negb].
  destruct (truthy (Middleware.resolve_policy_id c)) eqn:Epolicy.
  - cbn [negb]. destruct (verify_policy client _ _) as [[decision|e] r'].
    + destruct (allow decision) eqn:Ea.
      * cbn. destruct (next _) as [c1 [[]|]];
          destruct (next _) as [c2 [[]|]]; cbn; auto.
      * cbn. auto.
    + destruct e; cbn; auto.
  - cbn. destruct (next _) as [c' [[]|]]; cbn; auto.
Qed.

(** * The default policy mapping *)

Lemma lower_char_idempotent (c : ascii) :
  Middleware.lower_char (Middleware.lower_char c) = Middleware.lower_char c.
Proof. destruct c as [[] [] [] [] [] [] [] []]; vm_compute; reflexivity. Qed.

Lemma lower_idempotent (s : string) :
  Middleware.lower (Middleware.lower s) = Middleware.lower s.
Proof.
  induction s as [|c rest IH]; simpl; [reflexivity|].
  now rewrite lower_char_idempotent, IH.
Qed.

Lemma lower_append (a b : string) :
  Middleware.lower (a ++ b) = Middleware.lower a ++ Middleware.lower b.
Proof.
  induction a as [|c rest IH]; [reflexivity|].
  rewrite append_String. simpl Middleware.lower.
  rewrite append_String. now rewrite IH.
Qed.

(** X17. The default mapping does not depend on the case of the function
    name, and it yields a policy id exactly for the names that lower-case to
    one of its eight entries; for every other name it yields [None]. *)
Theorem X17_default_policy_mapping_ignores_case (function_name : string) :
  Middleware._default_policy_mapping (Middleware.lower function_name)
  = Middleware._default_policy_mapping function_name
  /\ (truthy (Middleware._default_policy_mapping function_name) = true <->
      In (Middleware.lower function_name)
         [ "execute_refund"; "process_refund"; "refund"; "export_data";
           "create_export"; "merge_pull_request"; "deploy"; "send_message" ])
  /\ (truthy (Middleware._default_policy_mapping function_name) = false ->
      Middleware._default_policy_mapping function_name = VNone).
Proof.
  unfold Middleware._default_policy_mapping.
  rewrite lower_idempotent. split; [reflexivity|].
  destruct (Middleware.policy_map !! Middleware.lower function_name)
    as [policy_id|] eqn:E.
  - apply elem_of_list_to_map_2 in E.
    repeat (apply elem_of_cons in E as [E|E];
            [inversion E; subst; split;
             [split; [intros _; cbn; tauto | intros _; reflexivity]
             | discriminate]|]).
    apply elem_of_nil in E. contradiction.
  - split; [|reflexivity]. split; [discriminate|].
    intros Hin. exfalso.
    apply not_elem_of_list_to_map in E. apply E.
    cbn in Hin |- *.
    repeat (destruct Hin as [<-|Hin]; [set_solver|]). contradiction.
Qed.

(** * The global exception handler *)

Lemma is_prefix_lower (p s : string) :
  Endpoints.is_prefix p s = true ->
  Endpoints.is_prefix (Middleware.lower p) (Middleware.lower s) = true.
Proof.
  revert s. induction p as [|a p IH]; intros [|b s]; simpl; auto.
  intros H. apply andb_true_iff in H as [Hab Hps].
  apply Ascii.eqb_eq in Hab. subst. rewrite Ascii.eqb_refl. now apply IH.
Qed.

Lemma str_contains_lower (needle haystack : string) :
  Endpoints.str_contains needle haystack = true ->
  Endpoints.str_contains (Middleware.lower needle) (Middleware.lower haystack)
  = true.
Proof.
  induction haystack as [|c rest IH]; simpl; intros H.
  - apply orb_true_iff in H as [H|H]; [|discriminate].
    apply (is_prefix_lower needle "") in H. simpl in H. now rewrite H.
  - apply orb_true_iff in H as [H|H].
    + apply (is_prefix_lower needle (String c rest)) in H. simpl in H.
      now rewrite H.
    + rewrite (IH H). apply orb_true_r.
Qed.

Lemma is_prefix_shorter (p q s : string) :
  Endpoints.is_prefix (p ++ q) s = true -> Endpoints.is_prefix p s = true.
Proof.
  revert s. induction p as [|a p IH]; intros s; [reflexivity|].
  rewrite append_String. destruct s as [|b s]; simpl; [auto|].
  intros H. apply andb_true_iff in H as [Hab Hps].
  rewrite Hab. now apply IH.
Qed.

Lemma str_contains_shorter (p q haystack : string) :
  Endpoints.str_contains (p ++ q) haystack = true ->
  Endpoints.str_contains p haystack = true.
Proof.
  induction haystack as [|c rest IH]; simpl; intros H.
  - apply orb_true_iff in H as [H|H]; [|discriminate].
    apply is_prefix_shorter in H. now rewrite H.
  - apply orb_true_iff in H as [H|H].
    + apply is_prefix_shorter in H. now rewrite H.
    + rewrite (IH H). apply orb_true_r.
Qed.

Lemma agent_passport_contains_agent (exc_str : string) :
  Endpoints.str_contains "Agent Passport" exc_str = true ->
  Endpoints.str_contains "agent" (Middleware.lower exc_str) = true.
Proof.
  intros H. apply str_contains_lower in H.
  change (Middleware.lower "Agent Passport") with ("agent" ++ " passport") in H.
  now apply str_contains_shorter in H.
Qed.

(** X18. [global_exception_handler] answers 403 exactly for the messages
    containing [MCP]; among the others it answers 401 exactly for those
    containing [agent] in any mix of cases (the test for [Agent Passport]
    adds nothing to it) and 500 for the rest.  A 500 answer never repeats
    the exception text; a 401 or 403 answer repeats it in full. *)
Theorem X18_global_exception_handler_classes (exc_str : string) :
  let response := Endpoints.global_exception_handler exc_str in
  (Endpoints.json_status response = 403%Z <->
   Endpoints.str_contains "MCP" exc_str = true)
  /\ (Endpoints.json_status response = 401%Z <->
      Endpoints.str_contains "MCP" exc_str = false
      /\ Endpoints.str_contains "agent" (Middleware.lower exc_str) = true)
  /\ (Endpoints.json_status response = 500%Z <->
      Endpoints.str_contains "MCP" exc_str = false
      /\ Endpoints.str_contains "agent" (Middleware.lower exc_str) = false)
  /\ (Endpoints.json_status response = 500%Z ->
      Endpoints.json_message response = "An unexpected error occurred")
  /\ (Endpoints.json_status response <> 500%Z ->
      Endpoints.json_message response = exc_str).
Proof.
  unfold Endpoints.global_exception_handler.
  pose proof (agent_passport_contains_agent exc_str) as Hsub.
  destruct (Endpoints.str_contains "MCP" exc_str).
  - cbn. repeat split; intros; try discriminate; try tauto;
      try (destruct H; discriminate).
  - destruct (Endpoints.str_contains "agent" (Middleware.lower exc_str)).
    + rewrite orb_true_r. cbn.
      repeat split; intros; try discriminate; try tauto;
        try (destruct H; discriminate).
    + destruct (Endpoints.str_contains "Agent Passport" exc_str).
      * specialize (Hsub eq_refl). discriminate.
      * cbn. repeat split; intros; try discriminate; try tauto;
          try (destruct H; discriminate).
Qed.

Lemma X18_global_exception_handler_classes_witness :
  Endpoints.json_message
    (Endpoints.global_exception_handler "database connection lost")
  = "An unexpected error occurred".
Proof.
  apply (X18_global_exception_handler_classes "database connection lost").
  reflexivity.
Defined.

(** * The refund endpoint *)

(** X19. [create_refund] answers 401 without calling the client when the
    agent id header is missing or empty.  Otherwise it fetches the passport
    exactly when the request carries MCP servers or tools, and then, when
    the MCP validation fails (an entry outside the allowlist, or the
    passport cannot be fetched), it answers with that failure and makes no
    policy verification.  It never verifies more than once. *)
Theorem X19_create_refund_gates {RS : Type} (client : Endpoints.Client RS)
    (random_suffix : string) (request : MCP.Request)
    (refund_data : Endpoints.RefundRequest)
    (x_agent_passport_id : option string) (rs : RS) :
  let run := Endpoints.create_refund client random_suffix request refund_data
               x_agent_passport_id rs in
  let calls := snd run in
  let mcp_headers := MCP.extract_mcp_headers request in
  (Endpoints.nonempty x_agent_passport_id = false ->
   run = (Endpoints.HttpError Endpoints.missing_agent_id, rs, []))
  /\ existsb Endpoints.is_passport_call calls
     = Endpoints.nonempty x_agent_passport_id && Endpoints.has_mcp mcp_headers
  /\ (length (List.filter Endpoints.is_verify_call calls) <= 1)%nat
  /\ (forall agent_id e,
        x_agent_passport_id = Some agent_id ->
        Endpoints.nonempty x_agent_passport_id = true ->
        Endpoints.has_mcp mcp_headers = true ->
        MCP.validate_mcp_against_passport
          (fst (Endpoints.get_passport_view client rs agent_id)) mcp_headers
        = inl e ->
        fst (fst run) = Endpoints.HttpError (Endpoints.of_mcp e)
        /\ existsb Endpoints.is_verify_call calls = false).
Proof.
  unfold Endpoints.create_refund, Endpoints.verify_and_process.
  destruct x_agent_passport_id as [[|ch agent]|]; cbn [Endpoints.nonempty].
  1, 3: (cbn; split; [reflexivity|]; split; [reflexivity|];
         split; [lia|]; intros; discriminate).
  set (agent_id := String ch agent).
  destruct (Endpoints.has_mcp (MCP.extract_mcp_headers request)) eqn:Hmcp.
  - destruct (Endpoints.get_passport_view client rs agent_id)
      as [fetch rs1] eqn:Efetch.
    assert (Hval : forall a e',
              Some agent_id = Some a ->
              MCP.validate_mcp_against_passport
                (fst (Endpoints.get_passport_view client rs a))
                (MCP.extract_mcp_headers request) = inl e' ->
              MCP.validate_mcp_against_passport fetch
                (MCP.extract_mcp_headers request) = inl e').
    { intros a e' Ha Hv. inversion Ha; subst a. now rewrite Efetch in Hv. }
    destruct (MCP.validate_mcp_against_passport fetch _) as [e|ok] eqn:Eval.
    + cbn. split; [discriminate|]. split; [reflexivity|]. split; [lia|].
      intros a e' Ha _ _ Hv. pose proof (Hval a e' Ha Hv) as Hv'.
      inversion Hv'; subst. split; reflexivity.
    + destruct (Endpoints.verify_policy client rs1 _ _ _)
        as [[decision|[]] rs2]; try destruct (allow decision); cbn;
        (split; [discriminate|]); (split; [reflexivity|]);
        (split; [lia|]);
        intros a e' Ha _ _ Hv; pose proof (Hval a e' Ha Hv) as Hv';
        discriminate.
  - destruct (Endpoints.verify_policy client rs _ _ _)
      as [[decision|[]] rs2]; try destruct (allow decision); cbn;
      (split; [discriminate|]); (split; [reflexivity|]);
      (split; [lia|]); intros; discriminate.
Qed.

Lemma X19_create_refund_gates_witness :
  existsb Endpoints.is_verify_call
    (snd (Endpoints.create_refund EndpointExamples.allowing_client "abc123xyz"
            EndpointExamples.unlisted_server_request
            EndpointExamples.refund_data (Some "ap_test") 0%nat)) = false.
Proof.
  destruct (X19_create_refund_gates EndpointExamples.allowing_client
              "abc123xyz" EndpointExamples.unlisted_server_request
              EndpointExamples.refund_data (Some "ap_test") 0%nat)
    as (_ & _ & _ & H).
  eapply H; reflexivity.
Defined.

(** X20. [create_refund] answers with success only after a policy
    verification that returned [allow = True], made last and exactly once;
    the response then repeats that decision's id and the requested amount.
    An error answered after the verification was made is either the 403
    [policy_violation] of a deny or [policy_verification_failed]. *)
Theorem X20_create_refund_succeeds_only_when_allowed {RS : Type}
    (client : Endpoints.Client RS) (random_suffix : string)
    (request : MCP.Request) (refund_data : Endpoints.RefundRequest)
    (x_agent_passport_id : option string) (rs : RS) :
  let run := Endpoints.create_refund client random_suffix request refund_data
               x_agent_passport_id rs in
  (forall response,
     fst (fst run) = Endpoints.Responded response ->
     exists agent_id rs0 context decision,
       x_agent_passport_id = Some agent_id
       /\ Endpoints.verify_policy client rs0 agent_id
            "finance.payment.refund.v1" context
          = (Returned decision, snd (fst run))
       /\ snd run = (List.filter Endpoints.is_passport_call (snd run)
                     ++ [Endpoints.VerifyPolicy agent_id
                           "finance.payment.refund.v1" context])%list
       /\ allow decision = true
       /\ Endpoints.resp_decision_id response = decision_id decision
       /\ Endpoints.resp_amount response = Endpoints.amount refund_data
       /\ Endpoints.success response = true)
  /\ (forall e,
        fst (fst run) = Endpoints.HttpError e ->
        existsb Endpoints.is_verify_call (snd run) = true ->
        (Endpoints.status_code e = 403%Z
         /\ Middleware.assoc "error" (Endpoints.detail e)
            = VStr "policy_violation")
        \/ Middleware.assoc "error" (Endpoints.detail e)
           = VStr "policy_verification_failed").
Proof.
  unfold Endpoints.create_refund, Endpoints.verify_and_process.
  destruct x_agent_passport_id as [[|ch agent]|].
  1, 3: (cbn; split; intros; discriminate).
  set (agent_id := String ch agent).
  destruct (Endpoints.has_mcp (MCP.extract_mcp_headers request)) eqn:Hmcp.
  - destruct (Endpoints.get_passport_view client rs agent_id)
      as [fetch rs1] eqn:Efetch.
    destruct (MCP.validate_mcp_against_passport fetch _) as [e|ok] eqn:Eval.
    + cbn. split; intros; discriminate.
    + destruct (Endpoints.verify_policy client rs1 _ _ _)
        as [[decision|[]] rs2] eqn:Ev; try destruct (allow decision) eqn:Ea;
        cbn; (split; [intros response Hr | intros e' He Hc]);
        try discriminate; try (inversion He; subst; cbn; auto).
      inversion Hr; subst. cbn.
      eexists agent_id, rs1, _, decision.
      repeat split; try reflexivity; try assumption.
  - destruct (Endpoints.verify_policy client rs _ _ _)
      as [[decision|[]] rs2] eqn:Ev; try destruct (allow decision) eqn:Ea;
      cbn; (split; [intros response Hr | intros e' He Hc]);
      try discriminate; try (inversion He; subst; cbn; auto).
    inversion Hr; subst. cbn.
    eexists agent_id, rs, _, decision.
    repeat split; try reflexivity; try assumption.
Qed.

Lemma X20_create_refund_succeeds_only_when_allowed_witness :
  exists response,
    fst (fst (Endpoints.create_refund EndpointExamples.allowing_client
                "abc123xyz" EndpointExamples.listed_request
                EndpointExamples.refund_data (Some "ap_test") 0%nat))
    = Endpoints.Responded response
    /\ Endpoints.resp_decision_id response = "dec_1".
Proof.
  destruct (X20_create_refund_succeeds_only_when_allowed
              EndpointExamples.allowing_client "abc123xyz"
              EndpointExamples.listed_request EndpointExamples.refund_data
              (Some "ap_test") 0%nat) as (H & _).
  eexists. split; [reflexivity|].
  destruct (H _ eq_refl) as (a & rs0 & context & d & _ & _ & _ & _ & Hid & _).
  reflexivity.
Defined.

Lemma set_if_lookup_ne (cond : bool) (key key' : string) (v : Value)
    (context : gmap string Value) :
  key <> key' ->
  Endpoints.set_if cond key v context !! key' = context !! key'.
Proof.
  intros Hne. unfold Endpoints.set_if.
  destruct cond; [now rewrite lookup_insert_ne | reflexivity].
Qed.

Lemma set_if_lookup_eq (cond : bool) (key : string) (v : Value)
    (context : gmap string Value) :
  Endpoints.set_if cond key v context !! key
  = if cond then Some v else context !! key.
Proof.
  unfold Endpoints.set_if.
  destruct cond; [now rewrite lookup_insert_eq | reflexivity].
Qed.

(** X21. The context sent for a refund always carries a non-empty
    idempotency key: the one of the request body when that is given and
    not empty, otherwise [refund_] followed by the [X-Request-ID] header
    (or by [unknown] when the header is missing).  It also carries the
    requested amount. *)
Theorem X21_refund_context_idempotency_key (request : MCP.Request)
    (refund_data : Endpoints.RefundRequest) (mcp_headers : MCP.McpHeaders) :
  let context := Endpoints.refund_context request refund_data mcp_headers in
  let key := Endpoints.effective_idempotency_key request refund_data in
  context !! "idempotency_key" = Some (VStr key)
  /\ key <> ""
  /\ (forall k, Endpoints.idempotency_key refund_data = Some k -> k <> "" ->
                key = k)
  /\ (Endpoints.nonempty (Endpoints.idempotency_key refund_data) = false ->
      key = "refund_"
            ++ default "unknown" (MCP.headers request !! "X-Request-ID"))
  /\ context !! "amount" = Some (VInt (Endpoints.amount refund_data)).
Proof.
  unfold Endpoints.refund_context. cbn zeta.
  rewrite !set_if_lookup_ne by discriminate.
  split; [reflexivity|].
  unfold Endpoints.effective_idempotency_key.
  destruct (Endpoints.idempotency_key refund_data) as [[|c rest]|];
    cbn [Endpoints.nonempty].
  - repeat split; try discriminate; try reflexivity.
    intros k Hk Hne. inversion Hk; subst. contradiction.
  - repeat split; try discriminate; try reflexivity.
    intros k Hk Hne. now inversion Hk.
  - repeat split; try discriminate; try reflexivity.
Qed.

Lemma X21_refund_context_idempotency_key_witness :
  Endpoints.effective_idempotency_key EndpointExamples.listed_request
    EndpointExamples.refund_data = "refund_req-7".
Proof.
  destruct (X21_refund_context_idempotency_key
              EndpointExamples.listed_request EndpointExamples.refund_data
              (MCP.extract_mcp_headers EndpointExamples.listed_request))
    as (_ & _ & _ & H & _).
  apply H. reflexivity.
Defined.

Lemma refund_context_mcp_servers (request : MCP.Request)
    (refund_data : Endpoints.RefundRequest) (h : MCP.McpHeaders) :
  Endpoints.refund_context request refund_data h !! "mcp_servers"
  = if Endpoints.nonempty_list (MCP.servers h)
    then Some (Endpoints.str_list (MCP.servers h)) else None.
Proof.
  unfold Endpoints.refund_context. cbn zeta.
  rewrite !set_if_lookup_ne by discriminate.
  rewrite set_if_lookup_eq.
  destruct (Endpoints.nonempty_list (MCP.servers h)); reflexivity.
Qed.

Lemma refund_context_mcp_server (request : MCP.Request)
    (refund_data : Endpoints.RefundRequest) (h : MCP.McpHeaders) :
  Endpoints.refund_context request refund_data h !! "mcp_server"
  = if Endpoints.nonempty (MCP.server h)
    then Some (VStr (default "" (MCP.server h))) else None.
Proof.
  unfold Endpoints.refund_context. cbn zeta.
  rewrite !set_if_lookup_ne by discriminate.
  rewrite set_if_lookup_eq.
  destruct (Endpoints.nonempty (MCP.server h)); [reflexivity|].
  rewrite !set_if_lookup_ne by discriminate. reflexivity.
Qed.

(** X22. Composing the header extraction with the context of the refund
    endpoint: [mcp_servers] is in the context exactly when the request names
    a server, and then holds the extracted list; when [mcp_server] is in the
    context it is the first entry of [mcp_servers]; it is left out only
    when no server is named or the first entry is empty. *)
Theorem X22_refund_context_mcp_fields (request : MCP.Request)
    (refund_data : Endpoints.RefundRequest) :
  let mcp_headers := MCP.extract_mcp_headers request in
  let context := Endpoints.refund_context request refund_data mcp_headers in
  (context !! "mcp_servers" = None <-> MCP.servers mcp_headers = [])
  /\ (MCP.servers mcp_headers <> [] ->
      context !! "mcp_servers"
      = Some (Endpoints.str_list (MCP.servers mcp_headers)))
  /\ (forall v,
        context !! "mcp_server" = Some v ->
        exists s rest,
          v = VStr s /\ s <> ""
          /\ context !! "mcp_servers" = Some (VList (VStr s :: rest)))
  /\ (context !! "mcp_server" = None ->
      MCP.servers mcp_headers = []
      \/ exists rest, MCP.servers mcp_headers = "" :: rest).
Proof.
  intros mcp_headers context. subst context.
  rewrite refund_context_mcp_servers, refund_context_mcp_server.
  change (MCP.server mcp_headers)
    with (MCP.first_or_none (MCP.servers mcp_headers)).
  destruct (MCP.servers mcp_headers) as [|[|c s] rest]; cbn.
  - split; [tauto|]. split; [intros H; contradiction|].
    split; [intros v Hv; discriminate|]. intros _. now left.
  - split; [split; discriminate|]. split; [reflexivity|].
    split; [intros v Hv; discriminate|]. intros _. right. now exists rest.
  - split; [split; discriminate|]. split; [reflexivity|].
    split; [|discriminate].
    intros v Hv. inversion Hv; subst.
    exists (String c s), (map VStr rest).
    split; [reflexivity|]. split; [discriminate | reflexivity].
Qed.

Lemma X22_refund_context_mcp_fields_witness :
  Endpoints.refund_context EndpointExamples.listed_request
    EndpointExamples.refund_data
    (MCP.extract_mcp_headers EndpointExamples.listed_request)
  !! "mcp_servers" = Some (VList [VStr "A"]).
Proof.
  destruct (X22_refund_context_mcp_fields EndpointExamples.listed_request
              EndpointExamples.refund_data) as (_ & H & _).
  apply H. discriminate.
Defined.

(** * The audit trail of the agent-run middleware *)

(** X23. [aport_agent_middleware] writes an audit record only after [next]
    ran without raising and left a result with [context.terminate] unset.
    When a policy was verified, the record carries the id of that decision,
    which allowed the run. *)
Theorem X23_agent_middleware_audits_completed_runs {RS : Type}
    (env : Middleware.Env) (client : APortClient RS)
    (next : Middleware.AgentRunContext
            -> Middleware.AgentRunContext * option Exn)
    (c : Middleware.AgentRunContext) (r : RS) :
  let out := Middleware.run_agent_middleware env client next
               (Examples.fresh c r) in
  let t := trace (snd out) in
  forall agent_id audit_decision_id,
    In (EvAudit agent_id audit_decision_id) t ->
    existsb is_next t = true
    /\ Middleware.terminate (ctx (snd out)) = false
    /\ truthy (Middleware.result (ctx (snd out))) = true
    /\ agent_id = py_or (get (Middleware.metadata c) "agent_id")
                        (get (Middleware.metadata c) "agent_passport_id")
    /\ (forall req d,
          In (EvVerifyPolicy req (Returned d)) t ->
          allow d = true /\ audit_decision_id = VStr (decision_id d)).
Proof.
  unfold_agent_middleware. destruct c as [msgs md res term str].
  cbn [ctx remote trace Middleware.metadata Middleware.is_streaming].
  destruct (truthy (py_or _ _)) eqn:Eagent.
  2:{ cbn [negb]. destruct str;
      destruct (Middleware.framework_available env); cbn;
      intros; break_in. }
  cbn [negb].
  destruct (truthy (get md "policy_id")) eqn:Epolicy.
  - destruct (verify_policy client _ _) as [[decision|e] r'].
    + destruct (allow decision) eqn:Ea.
      * cbn. destruct (next _) as [[msgs' md' res' term' str'] [e|]].
        -- cbn. destruct str';
             destruct (Middleware.framework_available env); cbn;
             intros; break_in.
        -- cbn. destruct (truthy res' && negb term') eqn:Eaudit; cbn;
             intros; break_in.
           apply andb_true_iff in Eaudit as [Hres Hterm].
           apply negb_true_iff in Hterm.
           repeat split; auto; intros; break_in; auto.
      * cbn. destruct str;
          destruct (Middleware.framework_available env); cbn;
          intros; break_in.
    + destruct e; cbn; destruct str;
        destruct (Middleware.framework_available env); cbn;
        intros; break_in.
  - destruct (get_passport_view client _ _) as [[passport_view|e] r'].
    + cbn. destruct (next _) as [[msgs' md' res' term' str'] [e|]].
      * cbn. destruct str';
          destruct (Middleware.framework_available env); cbn;
          intros; break_in.
      * cbn. destruct (truthy res' && negb term') eqn:Eaudit; cbn.
        -- apply andb_true_iff in Eaudit as [Hres Hterm].
           apply negb_true_iff in Hterm.
           destruct (get_or _ _ _); cbn; intros; break_in;
             repeat split; auto; intros; break_in.
        -- intros; break_in.
    + destruct e; cbn; destruct str;
        destruct (Middleware.framework_available env); cbn;
        intros; break_in.
Qed.

Lemma X23_agent_middleware_audits_completed_runs_witness :
  Middleware.terminate
    (ctx (snd (Middleware.run_agent_middleware Examples.env
                 Examples.stamping_client Examples.run_agent
                 (Examples.fresh Examples.refund_run 0%nat)))) = false.
Proof.
  apply (X23_agent_middleware_audits_completed_runs Examples.env
           Examples.stamping_client Examples.run_agent Examples.refund_run
           0%nat (VStr "ap_test") (VStr "dec_1")).
  vm_compute. right. right. left. reflexivity.
Defined.
